(** * Entrez MCP Python SDK: transport and session layer

    A shallow embedding of [sdk/python/entrez_sdk.py] (class [EntrezSDK]):
    the request pipeline [_request_payload], the response decoder
    [_parse_response_text] / [_parse_sse_payload], the payload error
    detection, the session header handling and [_call].

    Python values are modelled as follows.
    - [str] is a list of Unicode code points ([N]); the string methods the
      SDK uses ([strip], [lstrip], [startswith], [lower], [split],
      [splitlines], [join], [replace]) are written out below.
    - JSON-like values ([None], [bool], [int], [float], [str], [list],
      [dict]) are the inductive [json]; a [dict] with string keys is a
      [gmap].
    - An exception is a value of [exn]; a computation that may raise
      returns a [Res].
    - The [json] module, the formatting of values and the HTTP exchange are
      outside the repository: they are the operations of the classes
      [Python] and [Network]. *)

From Stdlib Require Ascii String.
From Stdlib Require Import ZArith NArith List Bool Floats DecimalString DecimalPos Lia.
From stdpp Require Import gmap list option.
Import String.StringSyntax.
Delimit Scope string_scope with string.

Set Warnings "-register-all".
Open Scope N_scope.

(** ** Python strings *)

Module Str.

Abbreviation pystr := (list N).

(** An ASCII literal as a Python string. *)
Definition str (s : String.string) : pystr :=
  map Ascii.N_of_ascii (String.list_ascii_of_string s).
Arguments str s%_string.

(** [c.isspace()]: the characters removed by [str.strip()]. *)
Definition is_space (c : N) : bool :=
  ((9 <=? c) && (c <=? 13)) || ((28 <=? c) && (c <=? 32))
  || (c =? 133) || (c =? 160) || (c =? 5760)
  || ((8192 <=? c) && (c <=? 8202))
  || (c =? 8232) || (c =? 8233) || (c =? 8239) || (c =? 8287)
  || (c =? 12288).

(** The line boundaries of [str.splitlines()]. *)
Definition is_linebreak (c : N) : bool :=
  ((10 <=? c) && (c <=? 13)) || ((28 <=? c) && (c <=? 30))
  || (c =? 133) || (c =? 8232) || (c =? 8233).

Fixpoint lstrip (s : pystr) : pystr :=
  match s with
  | c :: s' => if is_space c then lstrip s' else s
  | [] => []
  end.

Definition rstrip (s : pystr) : pystr := rev (lstrip (rev s)).

Definition strip (s : pystr) : pystr := rstrip (lstrip s).

(** [s.rstrip('/')] *)
Fixpoint lstrip_char (ch : N) (s : pystr) : pystr :=
  match s with
  | c :: s' => if c =? ch then lstrip_char ch s' else s
  | [] => []
  end.

Definition rstrip_char (ch : N) (s : pystr) : pystr :=
  rev (lstrip_char ch (rev s)).

Fixpoint startswith (s p : pystr) {struct p} : bool :=
  match p, s with
  | [], _ => true
  | a :: p', b :: s' => (a =? b) && startswith s' p'
  | _ :: _, [] => false
  end.

Definition endswith (s p : pystr) : bool := startswith (rev s) (rev p).

Definition eqb (s t : pystr) : bool := bool_decide (s = t).

(** [needle in s] for two strings. *)
Fixpoint contains (s needle : pystr) : bool :=
  startswith s needle ||
  match s with
  | _ :: s' => contains s' needle
  | [] => false
  end.

(** [s.lower()] on the ASCII letters. The SDK lowers a line only to test
    it for the prefix [data:], and no character outside [A-Z] lowers to
    one of [d], [a], [t], [:], so the other characters are left as they
    are. *)
Definition lower_char (c : N) : N :=
  if (65 <=? c) && (c <=? 90) then c + 32 else c.

Definition lower (s : pystr) : pystr := map lower_char s.

(** [s.replace(ch, '')] for a one-character [ch]. *)
Definition remove_char (ch : N) (s : pystr) : pystr :=
  filter (fun c => c ≠ ch) s.

(** [sep.join(parts)] *)
Fixpoint join (sep : pystr) (parts : list pystr) : pystr :=
  match parts with
  | [] => []
  | [p] => p
  | p :: rest => p ++ sep ++ join sep rest
  end.

(** [s.split(ch, 1)] for a one-character separator: at most one cut, at
    the first occurrence. *)
Fixpoint split_once_aux (ch : N) (acc s : pystr) : list pystr :=
  match s with
  | [] => [rev acc]
  | c :: s' => if c =? ch then [rev acc; s'] else split_once_aux ch (c :: acc) s'
  end.

Definition split_once (ch : N) (s : pystr) : list pystr :=
  split_once_aux ch [] s.

(** [s.split('\n\n')]: cuts at every occurrence of two line feeds, from
    the left, without overlap. *)
Fixpoint split_nn_aux (acc s : pystr) : list pystr :=
  match s with
  | c :: s' =>
      match s' with
      | d :: s'' =>
          if (c =? 10) && (d =? 10) then rev acc :: split_nn_aux [] s''
          else split_nn_aux (c :: acc) s'
      | [] => split_nn_aux (c :: acc) s'
      end
  | [] => [rev acc]
  end.

Definition split_nn (s : pystr) : list pystr := split_nn_aux [] s.

(** [s.splitlines()]: a carriage return followed by a line feed is one
    boundary, and a boundary at the very end opens no further line. *)
Fixpoint splitlines_aux (acc s : pystr) : list pystr :=
  match s with
  | [] => match acc with [] => [] | _ => [rev acc] end
  | c :: s' =>
      if is_linebreak c then
        rev acc ::
          match s' with
          | d :: s'' => if (c =? 13) && (d =? 10)
                        then splitlines_aux [] s''
                        else splitlines_aux [] s'
          | [] => []
          end
      else splitlines_aux (c :: acc) s'
  end.

Definition splitlines (s : pystr) : list pystr := splitlines_aux [] s.

(** [str(n)] for an integer. *)
Definition of_Z (z : Z) : pystr :=
  str (NilZero.string_of_int (Z.to_int z)).

End Str.
Export Str.

(** ** Python values, exceptions and the outside world *)

(** The values that [json.loads] returns and that the SDK passes around.
    [JNull] is [None]. *)
Inductive json : Type :=
| JNull
| JBool (b : bool)
| JInt (z : Z)
| JFloat (f : float)
| JStr (s : pystr)
| JList (l : list json)
| JDict (d : gmap pystr json).

(** Truth value of a value in a condition ([if v], [v and ...], [v or ...]). *)
Definition truthy (v : json) : bool :=
  match v with
  | JNull => false
  | JBool b => b
  | JInt z => negb (z =? 0)%Z
  | JFloat f => negb (PrimFloat.eqb f 0%float)
  | JStr s => match s with [] => false | _ => true end
  | JList l => match l with [] => false | _ => true end
  | JDict d => negb (bool_decide (size d = 0%nat))
  end.

Definition str_truthy (s : pystr) : bool :=
  match s with [] => false | _ => true end.

(** [v is None] *)
Definition is_none (v : json) : bool :=
  match v with JNull => true | _ => false end.

(** [EntrezSDKError] is the SDK's exception class; the others are the
    built-in exceptions that the pipeline lets through. *)
Inductive exn : Type :=
| EntrezSDKError (msg : pystr)
| TypeError
| AttributeError
| ValueError
| UnicodeDecodeError
| RecursionError.

Inductive Res (A : Type) : Type :=
| Return (a : A)
| Raise (e : exn).
Arguments Return {A} a.
Arguments Raise {A} e.

(** What the SDK uses of Python's library: [json.loads], [json.dumps], and
    the text that an f-string prints for a value that is not a string.
    [json.loads] ends in one of three ways: [Some (Return v)] is the value
    it returns, [None] stands for [json.JSONDecodeError], and
    [Some (Raise x)] for any other exception that it raises, such as the
    [ValueError] for an integer literal of more digits than the
    interpreter converts, or the [RecursionError] for a text nested too
    deep. *)
Class Python := {
  json_loads : pystr -> option (Res json);
  json_dumps : json -> pystr;
  py_repr : json -> pystr
}.

(** A value inside an f-string. *)
Definition format_value `{Python} (v : json) : pystr :=
  match v with
  | JStr s => s
  | _ => py_repr v
  end.

(** [aiohttp.ClientResponse]: [text] is what [await response.text()]
    returns when it returns. The headers keep their order; their names are
    compared without case. *)
Record ClientResponse := {
  status : Z;
  reason : option pystr;
  headers : list (pystr * pystr);
  text : pystr
}.

(** [response.headers.get(key)]: the first value under the name. *)
Fixpoint headers_get (hs : list (pystr * pystr)) (key : pystr) : option pystr :=
  match hs with
  | [] => None
  | (k, v) :: hs' =>
      if Str.eqb (lower k) (lower key) then Some v else headers_get hs' key
  end.

(** What [session.post(url, headers=..., json=...)] is given. *)
Record Request := {
  url : pystr;
  req_headers : gmap pystr pystr;
  req_json : json
}.

(** What [await response.text()] raises when it does not return: the
    [UnicodeDecodeError] of a body that is not text in the encoding of the
    response, or an [aiohttp.ClientError] with the text [msg] for a body
    that does not arrive whole. *)
Inductive BodyFailure : Type :=
| Undecodable
| Incomplete (msg : pystr).

(** How a POST ends: with a response whose body was read as text; with an
    [aiohttp.ClientError] whose text is [msg] before any response; or with
    a response whose status line and headers arrived and whose body could
    not be read, in which case [text response] is never looked at. *)
Inductive Outcome : Type :=
| Replied (response : ClientResponse)
| ClientError (msg : pystr)
| Unread (response : ClientResponse) (failure : BodyFailure).

Record Exchange := { sent : Request; got : Outcome }.

(** The server and the clock, as functions of what went over the wire so
    far: [time_ms] is [int(time.time() * 1000)] when the next request is
    built, [post] is the outcome of sending it. *)
Class Network := {
  time_ms : list Exchange -> Z;
  post : list Exchange -> Request -> Outcome
}.

(** ** The client *)

Record EntrezSDK := {
  base_url : pystr;
  session_id : option pystr;
  _session : bool;   (* whether the aiohttp.ClientSession exists *)
  protocol_version : pystr;
  client_info : json;
  client_capabilities : json
}.

Definition set_session_id (self : EntrezSDK) (sid : option pystr) : EntrezSDK :=
  {| base_url := base_url self;
     session_id := sid;
     _session := _session self;
     protocol_version := protocol_version self;
     client_info := client_info self;
     client_capabilities := client_capabilities self |}.

Definition __init__ (url : pystr) : EntrezSDK :=
  {| base_url := rstrip_char 47 url;
     session_id := None;
     _session := false;
     protocol_version := str "2025-11-25";
     client_info :=
       JDict (<[str "name" := JStr (str "entrez-mcp-python")]>
              (<[str "version" := JStr (str "1.0.0")]> ∅));
     client_capabilities := JDict (<[str "tools" := JDict ∅]> ∅) |}.

Definition _get_session (self : EntrezSDK) : EntrezSDK :=
  {| base_url := base_url self;
     session_id := session_id self;
     _session := true;
     protocol_version := protocol_version self;
     client_info := client_info self;
     client_capabilities := client_capabilities self |}.

Definition _format_context (context : pystr) : pystr :=
  let stripped := strip context in
  if startswith stripped (str "[") && endswith stripped (str "]")
  then stripped
  else str "[" ++ stripped ++ str "]".

Definition session_truthy (sid : option pystr) : bool :=
  match sid with
  | Some s => str_truthy s
  | None => false
  end.

Definition _build_headers (self : EntrezSDK) : gmap pystr pystr :=
  let headers : gmap pystr pystr :=
    <[str "MCP-Protocol-Version" := protocol_version self]>
    (<[str "Accept" := str "application/json, text/event-stream"]>
    (<[str "Content-Type" := str "application/json"]> ∅)) in
  match session_id self with
  | Some sid =>
      if str_truthy sid then <[str "Mcp-Session-Id" := sid]> headers else headers
  | None => headers
  end.

Definition _extract_session_id (self : EntrezSDK) (response : ClientResponse)
  : EntrezSDK :=
  match headers_get (headers response) (str "mcp-session-id") with
  | Some new_session_id =>
      if str_truthy new_session_id
      then set_session_id self (Some new_session_id)
      else self
  | None => self
  end.

(** ** Decoding a response body *)

(** The loop over the lines of one SSE segment: a line whose stripped,
    lowered text starts with [data:] contributes what follows its first
    colon, stripped on the left. *)
Fixpoint collect_data_lines (lines data_lines : list pystr) : Res (list pystr) :=
  match lines with
  | [] => Return data_lines
  | line :: rest =>
      let stripped := strip line in
      if startswith (lower stripped) (str "data:") then
        match split_once 58 stripped with
        | [_; value] => collect_data_lines rest (data_lines ++ [lstrip value])
        | _ => Raise ValueError
        end
      else collect_data_lines rest data_lines
  end.

Definition NO_SSE_PAYLOAD : pystr := str "No JSON payload found in SSE response".

(** The loop over the segments: the first one whose data lines parse wins. *)
Fixpoint parse_segments `{Python} (segments : list pystr) : Res json :=
  match segments with
  | [] => Raise (EntrezSDKError NO_SSE_PAYLOAD)
  | segment :: rest =>
      match collect_data_lines (splitlines segment) [] with
      | Raise e => Raise e
      | Return [] => parse_segments rest
      | Return data_lines =>
          match json_loads (join [10] data_lines) with
          | Some (Return payload) => Return payload
          | Some (Raise e) => Raise e
          | None => parse_segments rest
          end
      end
  end.

Definition sse_segments (text : pystr) : list pystr :=
  let normalized := remove_char 13 text in
  List.filter str_truthy (map strip (split_nn normalized)).

Definition _parse_sse_payload `{Python} (text : pystr) : Res json :=
  parse_segments (sse_segments text).

Definition _parse_response_text `{Python} (text : pystr) : Res json :=
  let trimmed := strip text in
  if str_truthy trimmed then
    match json_loads trimmed with
    | Some (Return v) => Return v
    | Some (Raise e) => Raise e
    | None => _parse_sse_payload trimmed
    end
  else Return (JDict ∅).

(** ** Errors reported inside a result *)

Definition ERROR_MARKER : pystr := [10060].   (* the cross mark, U+274C *)

(** The condition both loops test on a block of [content]. *)
Definition is_error_block (block : json) : bool :=
  match block with
  | JDict b =>
      match b !! str "type" with
      | Some (JStr ty) => Str.eqb ty (str "text")
      | _ => false
      end
      && match b !! str "text" with
         | Some (JStr t) => startswith (strip t) ERROR_MARKER
         | _ => false
         end
  | _ => false
  end.

Fixpoint any_error_block (content : list json) : bool :=
  match content with
  | [] => false
  | block :: rest => if is_error_block block then true else any_error_block rest
  end.

Definition _is_error_payload (payload : gmap pystr json) : bool :=
  match payload !! str "content" with
  | Some (JList content) => any_error_block content
  | _ => false
  end.

(** [block['text'].strip()] of a block that passed [is_error_block]. *)
Definition block_text (block : json) : pystr :=
  match block with
  | JDict b => match b !! str "text" with Some (JStr t) => strip t | _ => [] end
  | _ => []
  end.

Fixpoint first_error_text (content : list json) : option pystr :=
  match content with
  | [] => None
  | block :: rest =>
      if is_error_block block then Some (block_text block)
      else first_error_text rest
  end.

(** The generator of the fallback: the stripped text of every block that
    is a dict with a string under [text]. *)
Fixpoint stripped_texts (content : list json) : list pystr :=
  match content with
  | [] => []
  | JDict b :: rest =>
      match b !! str "text" with
      | Some (JStr t) => strip t :: stripped_texts rest
      | _ => stripped_texts rest
      end
  | _ :: rest => stripped_texts rest
  end.

Definition UNKNOWN_ERROR : pystr := str "Unknown error".

Definition _format_payload_error (payload : gmap pystr json) : pystr :=
  match payload !! str "content" with
  | Some (JList content) =>
      match first_error_text content with
      | Some t => t
      | None =>
          let combined := strip (join (str " ") (stripped_texts content)) in
          if str_truthy combined then combined else UNKNOWN_ERROR
      end
  | _ => UNKNOWN_ERROR
  end.

(** ** The request pipeline *)

(** ['error' in result] *)
Definition has_error (result : json) : Res bool :=
  match result with
  | JDict d => Return (bool_decide (is_Some (d !! str "error")))
  | JList l =>
      Return (existsb (fun v => match v with
                                | JStr s => Str.eqb s (str "error")
                                | _ => false
                                end) l)
  | JStr s => Return (contains s (str "error"))
  | _ => Raise TypeError
  end.

(** [result['error']], reached when ['error' in result] holds. *)
Definition get_error (result : json) : Res json :=
  match result with
  | JDict d => match d !! str "error" with
               | Some e => Return e
               | None => Raise TypeError
               end
  | _ => Raise TypeError
  end.

(** The reshaping of a result that is a dict (lines 199 to 212). *)
Definition normalize (payload : gmap pystr json) : json :=
  match payload !! str "structuredContent" with
  | Some structured =>
      match structured, payload !! str "content" with
      | JDict normalized, Some content =>
          JDict (<[str "content" := content]> normalized)
      | JDict normalized, None => JDict normalized
      | _, Some content => JDict (<[str "content" := content]> ∅)
      | _, None => structured
      end
  | None => JDict payload
  end.

(** What [_request_payload] does with a response once it has its text
    (lines 184 to 212). The handler for [json.JSONDecodeError] around it
    is never entered: both decoders catch that exception themselves. *)
Definition handle_response `{Python} (label : pystr) (response : ClientResponse)
  : Res json :=
  let response_text := text response in
  if (400 <=? status response)%Z then
    let message :=
      if str_truthy response_text then response_text
      else match reason response with
           | Some r => r
           | None => str "None"
           end in
    Raise (EntrezSDKError
             (label ++ str " HTTP " ++ of_Z (status response) ++ str ": " ++ message))
  else
    match _parse_response_text response_text with
    | Raise e => Raise e
    | Return result =>
        match (if truthy result then has_error result else Return false) with
        | Raise e => Raise e
        | Return true =>
            match get_error result with
            | Raise e => Raise e
            | Return (JDict e) =>
                let error_msg :=
                  default (JStr (json_dumps (JDict e))) (e !! str "message") in
                Raise (EntrezSDKError
                         (label ++ str " MCP Error: " ++ format_value error_msg))
            | Return _ => Raise AttributeError
            end
        | Return false =>
            let payload :=
              match result with
              | JDict d => default JNull (d !! str "result")
              | _ => JNull
              end in
            match payload with
            | JDict p =>
                if truthy payload && _is_error_payload p
                then Raise (EntrezSDKError
                              (label ++ str " " ++ _format_payload_error p))
                else Return (normalize p)
            | _ => Return payload
            end
        end
    end.

(** The client together with everything it has exchanged with the server,
    oldest first. *)
Record World := { sdk : EntrezSDK; wire : list Exchange }.

(** A method that may change the client, talk to the server and raise. *)
Definition M (A : Type) : Type := World -> Res A * World.

Definition ret {A} (a : A) : M A := fun w => (Return a, w).

Definition bind {A B} (m : M A) (k : A -> M B) : M B :=
  fun w =>
    match m w with
    | (Return a, w') => k a w'
    | (Raise e, w') => (Raise e, w')
    end.

Notation "'let*' x := m 'in' k" := (bind m (fun x => k))
  (at level 10, x name, m at level 100, k at level 200).

Definition rpc_envelope (id : Z) (method : pystr) (params : json) : json :=
  JDict (<[str "jsonrpc" := JStr (str "2.0")]>
         (<[str "id" := JInt id]>
          (<[str "method" := JStr method]>
           (<[str "params" := params]> ∅)))).

(** The arguments of [session.post]. *)
Definition post_request (self : EntrezSDK) (payload : json) : Request :=
  {| url := base_url self ++ str "/mcp";
     req_headers := _build_headers self;
     req_json := payload |}.

Definition _request_payload `{Python} `{Network}
    (context method : pystr) (params : json) : M json :=
  fun w =>
    let payload := rpc_envelope (time_ms (wire w)) method params in
    let label := _format_context context in
    let self := _get_session (sdk w) in
    let request := post_request self payload in
    match post (wire w) request with
    | Replied response =>
        let self := _extract_session_id self response in
        (handle_response label response,
         {| sdk := self;
            wire := wire w ++ [{| sent := request; got := Replied response |}] |})
    | ClientError msg =>
        (Raise (EntrezSDKError (label ++ str " Network error: " ++ msg)),
         {| sdk := self;
            wire := wire w ++ [{| sent := request; got := ClientError msg |}] |})
    | Unread response failure =>
        let self := _extract_session_id self response in
        (match failure with
         | Undecodable => Raise UnicodeDecodeError
         | Incomplete msg =>
             Raise (EntrezSDKError (label ++ str " Network error: " ++ msg))
         end,
         {| sdk := self;
            wire := wire w
                    ++ [{| sent := request; got := Unread response failure |}] |})
    end.

Definition initialize_params (self : EntrezSDK) : json :=
  JDict (<[str "protocolVersion" := JStr (protocol_version self)]>
         (<[str "capabilities" := client_capabilities self]>
          (<[str "clientInfo" := client_info self]> ∅))).

Definition _initialize_session `{Python} `{Network} : M unit :=
  fun w =>
    (let* _ := _request_payload (str "initialize") (str "initialize")
                 (initialize_params (sdk w)) in
     ret tt) w.

Definition _ensure_session `{Python} `{Network} : M unit :=
  fun w =>
    if session_truthy (session_id (sdk w)) then ret tt w
    else _initialize_session w.

(** [{k: v for k, v in params.items() if v is not None}] *)
Definition cleaned_params (params : gmap pystr json) : gmap pystr json :=
  filter (fun kv => is_none kv.2 = false) params.

Definition call_params (tool_name : pystr) (params : gmap pystr json) : json :=
  JDict (<[str "name" := JStr tool_name]>
         (<[str "arguments" := JDict (cleaned_params params)]> ∅)).

Definition _call `{Python} `{Network}
    (tool_name : pystr) (params : gmap pystr json) : M json :=
  let* _ := _ensure_session in
  _request_payload tool_name (str "tools/call") (call_params tool_name params).

(** A caller's use of one client: tool calls one after the other, each
    ending with a value or an exception that the caller catches. *)
Fixpoint run_calls `{Python} `{Network}
    (calls : list (pystr * gmap pystr json)) (w : World) : World :=
  match calls with
  | [] => w
  | (tool_name, params) :: rest => run_calls rest (_call tool_name params w).2
  end.

(** ** An executable JSON reader and writer

    [RefJson.loads] and [RefJson.dumps] make the SDK run on concrete
    responses. The reader covers JSON whose numbers are integers; it takes
    the white space, the escapes and the control characters as [json.loads]
    does, and like it raises [ValueError] when it comes to an integer
    literal of more than 4300 digits. It reads a text nested to any depth:
    the [RecursionError] of [json.loads] is not produced by it. The writer
    prints as [json.dumps] does by default, with the keys of a dict in the
    order of the map. *)
Module RefJson.

Definition is_ws (c : N) : bool :=
  (c =? 32) || (c =? 9) || (c =? 10) || (c =? 13).

Fixpoint skip_ws (s : pystr) : pystr :=
  match s with
  | c :: s' => if is_ws c then skip_ws s' else s
  | [] => []
  end.

Definition is_digit (c : N) : bool := (48 <=? c) && (c <=? 57).

Fixpoint read_digits (acc : Z) (s : pystr) : Z * pystr :=
  match s with
  | c :: s' =>
      if is_digit c then read_digits (10 * acc + Z.of_N (c - 48))%Z s'
      else (acc, s)
  | [] => (acc, [])
  end.

(** An integer literal: a zero, or digits that do not start with one. A
    fraction or an exponent after it is not read here. *)
Definition read_int (s : pystr) : option (Z * pystr) :=
  match s with
  | 48 :: s' => Some (0%Z, s')
  | c :: _ => if is_digit c then Some (read_digits 0 s) else None
  | [] => None
  end.

(** [sys.get_int_max_str_digits()] as the interpreter starts. *)
Definition INT_MAX_STR_DIGITS : nat := 4300.

(** The value of an integer literal read from [s] up to [rest]: the
    conversion of more digits than the limit raises. *)
Definition int_value (z : Z) (s rest : pystr) : Res json :=
  if (INT_MAX_STR_DIGITS <? length s - length rest)%nat
  then Raise ValueError
  else Return (JInt z).

Definition no_fraction (s : pystr) : bool :=
  match s with
  | c :: _ => negb ((c =? 46) || (c =? 101) || (c =? 69))
  | [] => true
  end.

Definition hex_digit (c : N) : option N :=
  if is_digit c then Some (c - 48)
  else if (97 <=? c) && (c <=? 102) then Some (c - 87)
  else if (65 <=? c) && (c <=? 70) then Some (c - 55)
  else None.

Definition read_hex4 (s : pystr) : option (N * pystr) :=
  match s with
  | a :: b :: c :: d :: s' =>
      match hex_digit a, hex_digit b, hex_digit c, hex_digit d with
      | Some x, Some y, Some z, Some t =>
          Some (((x * 16 + y) * 16 + z) * 16 + t, s')
      | _, _, _, _ => None
      end
  | _ => None
  end.

(** The characters of a string literal up to its closing quote. A
    [\uXXXX] escape costs six characters, so the recursion runs on a
    count of characters left. *)
Fixpoint read_string (n : nat) (acc s : pystr) : option (pystr * pystr) :=
  match n with
  | O => None
  | S n =>
      match s with
      | 34 :: s' => Some (rev acc, s')
      | 92 :: e :: s' =>
          if e =? 117 then
            match read_hex4 s' with
            | Some (hi, s'') =>
                match s'' with
                | 92 :: 117 :: s3 =>
                    match read_hex4 s3 with
                    | Some (lo, s4) =>
                        if (55296 <=? hi) && (hi <=? 56319)
                           && (56320 <=? lo) && (lo <=? 57343)
                        then read_string n
                               (65536 + (hi - 55296) * 1024 + (lo - 56320) :: acc) s4
                        else read_string n (hi :: acc) s''
                    | None => read_string n (hi :: acc) s''
                    end
                | _ => read_string n (hi :: acc) s''
                end
            | None => None
            end
          else
            match (if e =? 34 then Some 34 else if e =? 92 then Some 92
                   else if e =? 47 then Some 47 else if e =? 98 then Some 8
                   else if e =? 102 then Some 12 else if e =? 110 then Some 10
                   else if e =? 114 then Some 13 else if e =? 116 then Some 9
                   else None) with
            | Some c => read_string n (c :: acc) s'
            | None => None
            end
      | c :: s' => if c <? 32 then None else read_string n (c :: acc) s'
      | [] => None
      end
  end.

Fixpoint read_value (fuel : nat) (s : pystr) : option (Res json * pystr) :=
  match fuel with
  | O => None
  | S fuel =>
      match skip_ws s with
      | 110 :: 117 :: 108 :: 108 :: s' => Some (Return JNull, s')
      | 116 :: 114 :: 117 :: 101 :: s' => Some (Return (JBool true), s')
      | 102 :: 97 :: 108 :: 115 :: 101 :: s' => Some (Return (JBool false), s')
      | 34 :: s' =>
          match read_string (S (length s')) [] s' with
          | Some (t, s'') => Some (Return (JStr t), s'')
          | None => None
          end
      | 91 :: s' =>
          match skip_ws s' with
          | 93 :: s'' => Some (Return (JList []), s'')
          | _ => read_items fuel [] s'
          end
      | 123 :: s' =>
          match skip_ws s' with
          | 125 :: s'' => Some (Return (JDict ∅), s'')
          | _ => read_members fuel ∅ s'
          end
      | 45 :: s' =>
          match read_int s' with
          | Some (z, s'') =>
              if no_fraction s'' then Some (int_value (- z) s' s'', s'') else None
          | None => None
          end
      | s0 =>
          match read_int s0 with
          | Some (z, s'') =>
              if no_fraction s'' then Some (int_value z s0 s'', s'') else None
          | None => None
          end
      end
  end
with read_items (fuel : nat) (acc : list json) (s : pystr)
  : option (Res json * pystr) :=
  match fuel with
  | O => None
  | S fuel =>
      match read_value fuel s with
      | Some (Return v, s') =>
          match skip_ws s' with
          | 44 :: s'' => read_items fuel (v :: acc) s''
          | 93 :: s'' => Some (Return (JList (rev (v :: acc))), s'')
          | _ => None
          end
      | Some (Raise e, s') => Some (Raise e, s')
      | None => None
      end
  end
with read_members (fuel : nat) (acc : gmap pystr json) (s : pystr)
  : option (Res json * pystr) :=
  match fuel with
  | O => None
  | S fuel =>
      match skip_ws s with
      | 34 :: s1 =>
          match read_string (S (length s1)) [] s1 with
          | Some (k, s2) =>
              match skip_ws s2 with
              | 58 :: s3 =>
                  match read_value fuel s3 with
                  | Some (Return v, s4) =>
                      match skip_ws s4 with
                      | 44 :: s5 => read_members fuel (<[k := v]> acc) s5
                      | 125 :: s5 => Some (Return (JDict (<[k := v]> acc)), s5)
                      | _ => None
                      end
                  | Some (Raise e, s4) => Some (Raise e, s4)
                  | None => None
                  end
              | _ => None
              end
          | None => None
          end
      | _ => None
      end
  end.

Definition loads (s : pystr) : option (Res json) :=
  match read_value (2 * length s + 2) s with
  | Some (Return v, rest) =>
      match skip_ws rest with [] => Some (Return v) | _ => None end
  | Some (Raise e, _) => Some (Raise e)
  | None => None
  end.

Definition hex_char (d : N) : N := if d <? 10 then 48 + d else 87 + d.

Definition u_escape (c : N) : pystr :=
  [92; 117; hex_char (c / 4096 mod 16); hex_char (c / 256 mod 16);
   hex_char (c / 16 mod 16); hex_char (c mod 16)].

Definition escape_char (c : N) : pystr :=
  if c =? 34 then [92; 34]
  else if c =? 92 then [92; 92]
  else if c =? 10 then [92; 110]
  else if c =? 13 then [92; 114]
  else if c =? 9 then [92; 116]
  else if c =? 8 then [92; 98]
  else if c =? 12 then [92; 102]
  else if (32 <=? c) && (c <? 127) then [c]
  else if c <? 65536 then u_escape c
  else u_escape (55296 + (c - 65536) / 1024)
       ++ u_escape (56320 + (c - 65536) mod 1024).

Definition quote (s : pystr) : pystr :=
  [34] ++ concat (map escape_char s) ++ [34].

(** A finite float in full decimal expansion. *)
Definition dumps_float (f : float) : pystr :=
  match Prim2SF f with
  | S754_zero s => if s then str "-0.0" else str "0.0"
  | S754_infinity s => if s then str "-Infinity" else str "Infinity"
  | S754_nan => str "NaN"
  | S754_finite s m e =>
      (if s then str "-" else [])
      ++ (if (0 <=? e)%Z then of_Z (Z.pos m * 2 ^ e) ++ str ".0"
          else
            let k := Z.to_nat (- e) in
            let ds := of_Z (Z.pos m * 5 ^ (- e)) in
            let ds := replicate (S k - length ds) 48 ++ ds in
            take (length ds - k) ds ++ str "." ++ drop (length ds - k) ds)
  end.

Fixpoint dumps (v : json) : pystr :=
  match v with
  | JNull => str "null"
  | JBool true => str "true"
  | JBool false => str "false"
  | JInt z => of_Z z
  | JFloat f => dumps_float f
  | JStr s => quote s
  | JList l => str "[" ++ join (str ", ") (map dumps l) ++ str "]"
  | JDict d =>
      str "{"
      ++ join (str ", ")
           (map_fold (fun k x acc => (quote k ++ str ": " ++ dumps x) :: acc) [] d)
      ++ str "}"
  end.

(** How Python prints a value that is not a string inside an f-string is
    not needed to run the examples: this instance prints it as JSON. *)
#[export] Instance python : Python :=
  {| json_loads := loads; json_dumps := dumps; py_repr := dumps |}.

End RefJson.

(** ** Vocabulary of the statements *)

(** A client as its constructor leaves it, before any exchange. *)
Definition fresh (url : pystr) : World := {| sdk := __init__ url; wire := [] |}.

(** [invoke] is the public core: every tool method of the SDK is a call of
    [_call] with its tool name and parameters. *)
Definition invoke `{Python} `{Network} := _call.

(** The exchanges that a run from [w] to [w'] added to the wire. *)
Definition exchanges_since (w w' : World) : list Exchange :=
  drop (length (wire w)) (wire w').

(** The result of a request as a function of how its POST ended. *)
Definition settle `{Python} (label : pystr) (out : Outcome) : Res json :=
  match out with
  | Replied response => handle_response label response
  | ClientError msg =>
      Raise (EntrezSDKError (label ++ str " Network error: " ++ msg))
  | Unread _ Undecodable => Raise UnicodeDecodeError
  | Unread _ (Incomplete msg) =>
      Raise (EntrezSDKError (label ++ str " Network error: " ++ msg))
  end.

(** The session id that a response supplies: the first value under the
    session header, when it is not empty. The headers are looked at as
    soon as they are in, whether or not the body can be read. *)
Definition supplied (out : Outcome) : option pystr :=
  match out with
  | Replied response | Unread response _ =>
      match headers_get (headers response) (str "mcp-session-id") with
      | Some s => if str_truthy s then Some s else None
      | None => None
      end
  | ClientError _ => None
  end.

(** The session id held after some exchanges, starting from [sid]: the
    last one supplied, or [sid] when none was. *)
Definition session_after (sid : option pystr) (xs : list Exchange)
  : option pystr :=
  fold_left (fun held e => match supplied (got e) with
                           | Some s => Some s
                           | None => held
                           end) xs sid.

(** [w'] is [w] after the exchanges [xs]: the wire grew by them, the client
    holds the session id they leave, and each request went out with the
    headers of the client as it was just before. *)
Definition follows (w : World) (xs : list Exchange) (w' : World) : Prop :=
  wire w' = wire w ++ xs
  /\ session_id (sdk w') = session_after (session_id (sdk w)) xs
  /\ protocol_version (sdk w') = protocol_version (sdk w)
  /\ forall i e, xs !! i = Some e ->
       req_headers (sent e) =
         _build_headers
           (set_session_id (sdk w) (session_after (session_id (sdk w)) (take i xs))).

(** The text after [HTTP <status>: ] in the message of a failed status. *)
Definition body_or_reason (response : ClientResponse) : pystr :=
  if str_truthy (text response) then text response
  else match reason response with
       | Some r => r
       | None => str "None"
       end.

(** The number that a text of decimal digits writes, read from the left
    with [acc] for what was read before; [None] when a character is not a
    digit. *)
Fixpoint digits_value_from (acc : Z) (s : pystr) : option Z :=
  match s with
  | [] => Some acc
  | c :: s' =>
      if (48 <=? c) && (c <=? 57)
      then digits_value_from (10 * acc + Z.of_N (c - 48))%Z s'
      else None
  end.

(** The status code that the digits in a message write; an empty text
    writes none. *)
Definition digits_value (s : pystr) : option Z :=
  match s with
  | [] => None
  | _ => digits_value_from 0 s
  end.

(** The labels under which [invoke] sends its requests. *)
Definition invoke_label (tool_name label : pystr) : Prop :=
  label = str "[initialize]" \/ label = _format_context tool_name.

(** A network that answers the n-th request with the n-th outcome of a
    script, whatever the request says. *)
Definition scripted (script : list Outcome) : Network :=
  {| time_ms := fun xs => (1700000000000 + Z.of_nat (length xs))%Z;
     post := fun xs _ => nth (length xs) script (ClientError (str "closed")) |}.

(** A literal in which the apostrophe stands for the double quote. *)
Definition q (s : String.string) : pystr :=
  map (fun c => if c =? 39 then 34 else c) (str s).
Arguments q s%_string.

(** *** Server-sent events *)

(** A line of a segment is a data line when its stripped text, lowered,
    starts with [data:]. *)
Definition is_data_line (line : pystr) : bool :=
  startswith (lower (strip line)) (str "data:").

(** The value of a data line: what follows the colon, without any white
    space in front. *)
Definition data_value (line : pystr) : pystr := lstrip (drop 5 (strip line)).

Definition data_lines_of (segment : pystr) : list pystr :=
  map data_value (List.filter is_data_line (splitlines segment)).

(** The payload of a segment: what [json.loads] makes of its data values
    joined by line feeds, a value or an exception of its own; [None] when
    the segment has no data value or they are not JSON. *)
Definition segment_payload `{Python} (segment : pystr) : option (Res json) :=
  match data_lines_of segment with
  | [] => None
  | data_lines => json_loads (join [10] data_lines)
  end.

(** The first segment that has a payload wins. *)
Fixpoint first_payload (payload_of : pystr -> option (Res json))
    (segments : list pystr) : Res json :=
  match segments with
  | [] => Raise (EntrezSDKError NO_SSE_PAYLOAD)
  | segment :: rest =>
      match payload_of segment with
      | Some r => r
      | None => first_payload payload_of rest
      end
  end.






(** The stream [data: <line1>\ndata: <line2>\n\n], for any number of
    lines. *)
Definition sse_event (lines : list pystr) : pystr :=
  join [10] (map (app (str "data: ")) lines) ++ [10; 10].



(** ** Concrete responses for the examples *)

Definition not_found : ClientResponse :=
  {| status := 404;
     reason := Some (str "Not Found");
     headers := [];
     text := q "{'detail': 'no such route'}" |}.

(** The head of a 404 response whose body is bytes that are not UTF-8:
    [text] is never looked at. *)
Definition not_found_binary : ClientResponse :=
  {| status := 404;
     reason := Some (str "Not Found");
     headers := [(str "Content-Type", str "text/plain; charset=utf-8")];
     text := [] |}.

(** The exchange of a new client's handshake that ends with [out]. *)
Definition handshake_of (url : pystr) (out : Outcome) : Exchange :=
  {| sent := post_request (_get_session (__init__ url))
               (rpc_envelope 1700000000000 (str "initialize")
                  (initialize_params (__init__ url)));
     got := out |}.

(** A successful reply with an empty result; [sid] is the session id its
    headers carry, if any. *)
Definition ok_reply (sid : option pystr) : ClientResponse :=
  {| status := 200;
     reason := Some (str "OK");
     headers :=
       (str "Content-Type", str "application/json")
       :: match sid with
          | Some s => [(str "Mcp-Session-Id", s)]
          | None => []
          end;
     text := q "{'jsonrpc': '2.0', 'id': 1, 'result': {}}" |}.

Definition localhost : pystr := str "http://localhost:8787".

Definition status_call : pystr * gmap pystr json :=
  (str "system_api_key_status", ∅).

(** A server that issues the session id A with its first reply and the
    session id B with its third. *)
Definition reissuing : Network :=
  scripted [Replied (ok_reply (Some (str "A"))); Replied (ok_reply None);
            Replied (ok_reply (Some (str "B"))); Replied (ok_reply None)].

(** The session header of the n-th request on the wire. *)
Definition session_header_sent (w : World) (n : nat) : option pystr :=
  match wire w !! n with
  | Some e => req_headers (sent e) !! str "Mcp-Session-Id"
  | None => None
  end.

(** A new client's first invocation against that server, and the n-th
    exchange on a wire. *)
Definition first_run : World :=
  @run_calls RefJson.python reissuing [status_call] (fresh localhost).

Definition exchange_at (w : World) (n : nat) : Exchange :=
  nth n (wire w) (handshake_of [] (ClientError [])).

(** A failed reply that nevertheless issues a session id. *)
Definition unavailable : ClientResponse :=
  {| status := 503;
     reason := Some (str "Service Unavailable");
     headers := [(str "MCP-Session-ID", str "S1")];
     text := [] |}.

(** The text of the error that the server reports inside a result, with
    white space around it as it may arrive. *)
Definition invalid_database : pystr :=
  str "  " ++ ERROR_MARKER ++ str " Invalid database: invalid_database ".

(** A reply with status 200 whose second content block is that error. *)
Definition sentinel_reply : ClientResponse :=
  {| status := 200;
     reason := Some (str "OK");
     headers := [(str "Content-Type", str "application/json")];
     text :=
       q "{'jsonrpc': '2.0', 'id': 1, 'result': {'content': [{'type': 'text', 'text': 'see below'}, {'type': 'text', 'text': '"
       ++ invalid_database ++ q "'}]}}" |}.

(** A reply whose result has a structured part that is a dict with a
    [content] of its own, and one whose structured part is a list. *)
Definition structured_reply : ClientResponse :=
  {| status := 200;
     reason := Some (str "OK");
     headers := [];
     text :=
       q "{'jsonrpc': '2.0', 'id': 1, 'result': {'structuredContent': {'a': 1, 'content': 'old'}, 'content': [{'type': 'text', 'text': 'one'}]}}" |}.

Definition list_structured_reply : ClientResponse :=
  {| status := 200;
     reason := Some (str "OK");
     headers := [];
     text :=
       q "{'jsonrpc': '2.0', 'id': 1, 'result': {'structuredContent': [1, 2], 'content': [{'type': 'text', 'text': 'two ids'}]}}" |}.

(** A server that accepts the handshake with the session id A and answers
    the tool call with [reply]. *)
Definition answering (reply : ClientResponse) : Network :=
  scripted [Replied (ok_reply (Some (str "A"))); Replied reply].

(** A new client's first invocation of [entrez_query] against it. *)
Definition query_run (reply : ClientResponse) : Res json * World :=
  @_call RefJson.python (answering reply) (str "entrez_query") ∅ (fresh localhost).

Definition dict_of (v : option json) : gmap pystr json :=
  match v with
  | Some (JDict d) => d
  | _ => ∅
  end.

Definition list_of (v : option json) : list json :=
  match v with
  | Some (JList l) => l
  | _ => []
  end.

Definition value_of (r : option (Res json)) : option json :=
  match r with
  | Some (Return v) => Some v
  | _ => None
  end.

Definition envelope_of (reply : ClientResponse) : gmap pystr json :=
  dict_of (value_of (RefJson.loads (text reply))).

Definition result_of (reply : ClientResponse) : gmap pystr json :=
  dict_of (envelope_of reply !! str "result").

Definition text_block (t : pystr) : gmap pystr json :=
  <[str "type" := JStr (str "text")]> (<[str "text" := JStr t]> ∅).

(** Parameters of a search in which one option is left out and the others
    are a false flag, a zero and an empty string. *)
Definition search_params : gmap pystr json :=
  <[str "retmax" := JNull]>
  (<[str "usehistory" := JBool false]>
  (<[str "retstart" := JInt 0]>
  (<[str "term" := JStr []]> ∅))).




Definition indented_lines : list pystr := [q "{'a':"; q "    1}"].


(** ** The tool methods and the staged data set *)

Definition raise {A} (e : exn) : M A := fun w => (Raise e, w).

(** [ids: Union[str, List[str]]] *)
Inductive Ids : Type :=
| OneId (id : pystr)
| IdList (ids : list pystr).

(** [','.join(ids) if isinstance(ids, list) else str(ids)] *)
Definition ids_str (ids : Ids) : pystr :=
  match ids with
  | IdList l => join (str ",") l
  | OneId s => s
  end.

(** An [Optional[int]] and an [Optional[str]] as values. *)
Definition opt_int (o : option Z) : json :=
  match o with
  | Some z => JInt z
  | None => JNull
  end.

Definition opt_str (o : option pystr) : json :=
  match o with
  | Some s => JStr s
  | None => JNull
  end.

Definition search `{Python} `{Network}
    (database term : pystr) (retmax : Z) (retstart : option Z)
    (sort field intended_use : option pystr) : M json :=
  _call (str "entrez_query")
    (<[str "operation" := JStr (str "search")]>
     (<[str "database" := JStr database]>
      (<[str "term" := JStr term]>
       (<[str "retmax" := JInt retmax]>
        (<[str "retstart" := opt_int retstart]>
         (<[str "sort" := opt_str sort]>
          (<[str "field" := opt_str field]>
           (<[str "intended_use" := opt_str intended_use]> ∅)))))))).

Definition summary `{Python} `{Network}
    (database : pystr) (ids : Ids) (retmax : option Z) (compact_mode : bool)
    (detail_level : option pystr) (max_tokens : option Z) : M json :=
  let ids_str := ids_str ids in
  _call (str "entrez_query")
    (<[str "operation" := JStr (str "summary")]>
     (<[str "database" := JStr database]>
      (<[str "ids" := JStr ids_str]>
       (<[str "retmax" := opt_int retmax]>
        (<[str "compact_mode" := JBool compact_mode]>
         (<[str "detail_level" := opt_str detail_level]>
          (<[str "max_tokens" := opt_int max_tokens]> ∅))))))).

(** The arguments that [DataStaging] forwards come out of dicts, so they
    are taken as values of any kind. *)
Definition query_staged_data `{Python} `{Network}
    (data_access_id sql intended_use max_tokens response_style : json) : M json :=
  _call (str "entrez_data")
    (<[str "operation" := JStr (str "query")]>
     (<[str "data_access_id" := data_access_id]>
      (<[str "sql" := sql]>
       (<[str "intended_use" := intended_use]>
        (<[str "max_tokens" := max_tokens]>
         (<[str "response_style" := response_style]> ∅)))))).

(** [DataStaging]: the client it refers to is the one of the world. *)
Record DataStaging := {
  data_access_id : json;
  staging_result : gmap pystr json
}.

(** [options or {}] *)
Definition opts_of (options : option (gmap pystr json)) : gmap pystr json :=
  match options with
  | Some o => if truthy (JDict o) then o else ∅
  | None => ∅
  end.

(** [DataStaging.query] *)
Definition staging_query `{Python} `{Network}
    (self : DataStaging) (sql : json) (options : option (gmap pystr json))
  : M json :=
  let opts := opts_of options in
  query_staged_data (data_access_id self) sql
    (default JNull (opts !! str "intended_use"))
    (default JNull (opts !! str "max_tokens"))
    (default (JStr (str "text")) (opts !! str "response_style")).

(** What [fetch_and_stage] returns: a [DataStaging], or the result as it
    came. *)
Inductive StageResult : Type :=
| Staged (staging : DataStaging)
| NotStaged (result : gmap pystr json).

Definition fetch_and_stage `{Python} `{Network}
    (database : pystr) (ids : Ids) (rettype : pystr)
    (force_direct include_raw : bool) : M StageResult :=
  let ids_str := ids_str ids in
  let* result :=
    _call (str "entrez_data")
      (<[str "operation" := JStr (str "fetch_and_stage")]>
       (<[str "database" := JStr database]>
        (<[str "ids" := JStr ids_str]>
         (<[str "rettype" := JStr rettype]>
          (<[str "force_direct" := JBool force_direct]>
           (<[str "include_raw" := JBool include_raw]> ∅)))))) in
  match result with
  | JDict r =>
      match r !! str "data_access_id" with
      | Some id =>
          if truthy id
          then ret (Staged {| data_access_id := id; staging_result := r |})
          else ret (NotStaged r)
      | None => ret (NotStaged r)
      end
  | _ => raise AttributeError
  end.

(** [close]: the HTTP session goes, the rest of the client stays. *)
Definition close (self : EntrezSDK) : EntrezSDK :=
  {| base_url := base_url self;
     session_id := session_id self;
     _session := false;
     protocol_version := protocol_version self;
     client_info := client_info self;
     client_capabilities := client_capabilities self |}.

Definition close_client (w : World) : World :=
  {| sdk := close (sdk w); wire := wire w |}.

(** *** Vocabulary for requests *)

(** The request that a client in state [self] sends for [method] and
    [params] when the wire holds [before]. *)
Definition request_of `{Network} (self : EntrezSDK) (before : list Exchange)
    (method : pystr) (params : json) : Request :=
  {| url := base_url self ++ str "/mcp";
     req_headers := _build_headers self;
     req_json := rpc_envelope (time_ms before) method params |}.

(** The method and the parameters of a request body. *)
Definition request_method (r : Request) : option json :=
  match req_json r with
  | JDict d => d !! str "method"
  | _ => None
  end.

Definition request_params (r : Request) : option json :=
  match req_json r with
  | JDict d => d !! str "params"
  | _ => None
  end.

(** The [arguments] of a tool call. *)
Definition request_arguments (r : Request) : gmap pystr json :=
  match request_params r with
  | Some (JDict ps) => dict_of (ps !! str "arguments")
  | _ => ∅
  end.

(** A reply that reports a JSON-RPC error next to a result, one with an
    empty body, and one that staged its data. *)
Definition rpc_error_reply : ClientResponse :=
  {| status := 200;
     reason := Some (str "OK");
     headers := [];
     text := q "{'jsonrpc': '2.0', 'id': 1, 'error': {'code': -32602, 'message': 'Invalid database'}, 'result': {'content': []}}" |}.

Definition string_error_reply : ClientResponse :=
  {| status := 200;
     reason := Some (str "OK");
     headers := [];
     text := q "{'jsonrpc': '2.0', 'id': 1, 'error': 'boom'}" |}.

Definition number_reply : ClientResponse :=
  {| status := 200; reason := Some (str "OK"); headers := []; text := str "42" |}.

Definition empty_reply : ClientResponse :=
  {| status := 202; reason := Some (str "Accepted"); headers := []; text := str "  " |}.

Definition garbage_reply : ClientResponse :=
  {| status := 200;
     reason := Some (str "OK");
     headers := [];
     text := str "<html>Bad gateway</html>" |}.

Definition staged_reply : ClientResponse :=
  {| status := 200;
     reason := Some (str "OK");
     headers := [];
     text := q "{'jsonrpc': '2.0', 'id': 1, 'result': {'data_access_id': 'ds_1', 'tables': 3}}" |}.

(** A client that already holds the session id A, and a server that gives
    [reply] to its next request. *)
Definition in_session : World :=
  {| sdk := set_session_id (__init__ localhost) (Some (str "A")); wire := [] |}.

Definition replying (reply : ClientResponse) : Network := scripted [Replied reply].

(** What stays the same in a client over its life. *)
Definition statics (self : EntrezSDK) : pystr * pystr * json * json :=
  (base_url self, protocol_version self, client_info self, client_capabilities self).

(** A request as a client like [self] sends it when the wire holds
    [before]: to the one endpoint, with an envelope whose id is the clock
    reading, for the handshake or for a tool call. *)
Definition well_sent `{Network} (self : EntrezSDK) (before : list Exchange)
    (e : Exchange) : Prop :=
  url (sent e) = base_url self ++ str "/mcp"
  /\ exists method params,
       req_json (sent e) = rpc_envelope (time_ms before) method params
       /\ ((method = str "initialize" /\ params = initialize_params self)
           \/ (method = str "tools/call"
               /\ exists tool_name ps, params = call_params tool_name ps)).

Definition sends `{Network} (w : World) (xs : list Exchange) (w' : World) : Prop :=
  wire w' = wire w ++ xs
  /\ statics (sdk w') = statics (sdk w)
  /\ forall i e, xs !! i = Some e -> well_sent (sdk w) (wire w ++ take i xs) e.

(** A server that never issues a session id. *)
Definition sessionless : Network :=
  scripted [Replied (ok_reply None); Replied (ok_reply None);
            Replied (ok_reply None); Replied (ok_reply None)].

(** The parameters that [fetch_and_stage] hands to [_call]. *)
Definition stage_params (database : pystr) (ids : Ids) (rettype : pystr)
    (force_direct include_raw : bool) : gmap pystr json :=
  <[str "operation" := JStr (str "fetch_and_stage")]>
  (<[str "database" := JStr database]>
   (<[str "ids" := JStr (ids_str ids)]>
    (<[str "rettype" := JStr rettype]>
     (<[str "force_direct" := JBool force_direct]>
      (<[str "include_raw" := JBool include_raw]> ∅))))).

(** A staged data set as [staged_reply] announces it. *)
Definition staged_ds1 : DataStaging :=
  {| data_access_id := JStr (str "ds_1");
     staging_result :=
       <[str "data_access_id" := JStr (str "ds_1")]> (<[str "tables" := JInt 3]> ∅) |}.

(** [fetch_and_stage] for two PubMed records by a client in session, to
    a server that gives [reply]. *)
Definition stage_run (reply : ClientResponse) : Res StageResult * World :=
  @fetch_and_stage RefJson.python (replying reply)
    (str "pubmed") (IdList [str "31452104"; str "31452105"]) (str "xml") false false
    in_session.

(** A network that refuses the connection, and the invocation of
    [entrez_query] by the client in session against a server that gives
    [reply]. *)
Definition refusing : Network :=
  scripted [ClientError (str "Cannot connect to host")].

Definition session_call (reply : ClientResponse) : Res json * World :=
  @_call RefJson.python (replying reply) (str "entrez_query") ∅ in_session.

(** ** The pipeline, one request at a time *)

Section Pipeline.
Context `{Python} `{Network}.

Lemma _request_payload_eq context method params w :
  let request := post_request (_get_session (sdk w))
                   (rpc_envelope (time_ms (wire w)) method params) in
  let out := post (wire w) request in
  _request_payload context method params w =
    (settle (_format_context context) out,
     {| sdk := match out with
               | Replied response | Unread response _ =>
                   _extract_session_id (_get_session (sdk w)) response
               | ClientError _ => _get_session (sdk w)
               end;
        wire := wire w ++ [{| sent := request; got := out |}] |}).
Proof.
  intros request out. unfold _request_payload.
  fold request. fold out. destruct out as [r|m|r []]; reflexivity.
Qed.

Lemma handle_response_http label response :
  (400 <= status response)%Z ->
  handle_response label response =
    Raise (EntrezSDKError (label ++ str " HTTP " ++ of_Z (status response)
                           ++ str ": " ++ body_or_reason response)).
Proof.
  intros Hs. unfold handle_response, body_or_reason.
  destruct (Z.leb_spec 400 (status response)); [reflexivity | lia].
Qed.

Lemma session_id_extract self response :
  session_id (_extract_session_id self response) =
    match supplied (Replied response) with
    | Some s => Some s
    | None => session_id self
    end.
Proof.
  unfold _extract_session_id, supplied.
  destruct (headers_get _ _) as [s|]; [|reflexivity].
  destruct (str_truthy s); reflexivity.
Qed.

End Pipeline.

(** ** The shape of an invocation *)

Section Invocation.
Context `{Python} `{Network}.

Lemma format_context_initialize :
  _format_context (str "initialize") = str "[initialize]".
Proof. reflexivity. Qed.

(** With a session id in hand, [_call] is one request. *)
Lemma _call_with_session tool_name params w :
  session_truthy (session_id (sdk w)) = true ->
  _call tool_name params w =
    _request_payload tool_name (str "tools/call") (call_params tool_name params) w.
Proof.
  intros Hs. unfold _call, bind, _ensure_session. rewrite Hs. reflexivity.
Qed.

(** Without one, the handshake goes first, and the tool request follows
    only when the handshake returns. *)
Lemma _call_without_session tool_name params w :
  session_truthy (session_id (sdk w)) = false ->
  _call tool_name params w =
    match _request_payload (str "initialize") (str "initialize")
            (initialize_params (sdk w)) w with
    | (Return _, w1) =>
        _request_payload tool_name (str "tools/call")
          (call_params tool_name params) w1
    | (Raise e, w1) => (Raise e, w1)
    end.
Proof.
  intros Hs. unfold _call, bind, _ensure_session, _initialize_session, bind, ret.
  rewrite Hs.
  destruct (_request_payload _ _ _ w) as [[v|e] w1]; reflexivity.
Qed.

(** An invocation adds one or two exchanges to the wire. Its result is the
    result of the last one; an earlier one is a handshake that returned. *)
Lemma invoke_wire tool_name params w :
  exists xs e label,
    wire (_call tool_name params w).2 = wire w ++ xs ++ [e]
    /\ invoke_label tool_name label
    /\ (_call tool_name params w).1 = settle label (got e)
    /\ (forall e', e' ∈ xs -> exists v, settle (str "[initialize]") (got e') = Return v).
Proof.
  destruct (session_truthy (session_id (sdk w))) eqn:Hs.
  - rewrite (_call_with_session _ _ _ Hs), _request_payload_eq. simpl.
    eexists [], _, _. split; [reflexivity|]. split; [right; reflexivity|].
    split; [reflexivity|]. intros e' He'. inversion He'.
  - rewrite (_call_without_session _ _ _ Hs), _request_payload_eq.
    rewrite format_context_initialize.
    set (r1 := post_request _ _). set (o1 := post (wire w) r1).
    destruct (settle (str "[initialize]") o1) as [v|x] eqn:Hsettle.
    + rewrite _request_payload_eq. simpl.
      eexists [_], _, _. split; [rewrite <- app_assoc; reflexivity|].
      split; [right; reflexivity|]. split; [reflexivity|].
      intros e' He'. apply list_elem_of_singleton in He'. subst e'.
      exists v. exact Hsettle.
    + simpl. eexists [], _, _. split; [reflexivity|].
      split; [left; reflexivity|]. split; [symmetry; exact Hsettle|].
      intros e' He'. inversion He'.
Qed.

Lemma exchanges_since_invoke tool_name params w xs :
  wire (_call tool_name params w).2 = wire w ++ xs ->
  exchanges_since w (_call tool_name params w).2 = xs.
Proof.
  intros Hw. unfold exchanges_since. rewrite Hw. apply drop_app_length.
Qed.

(** A response that makes a request fail makes the invocation fail: the
    exchange that received it is the last one. *)
Lemma invoke_failing_exchange tool_name params w e :
  e ∈ exchanges_since w (_call tool_name params w).2 ->
  (forall label, exists x, settle label (got e) = Raise x) ->
  exists label,
    invoke_label tool_name label
    /\ (_call tool_name params w).1 = settle label (got e).
Proof.
  intros He Hfail.
  destruct (invoke_wire tool_name params w) as (xs & e0 & label & Hw & Hl & Hr & Hxs).
  rewrite (exchanges_since_invoke _ _ _ _ Hw) in He.
  apply elem_of_app in He as [He|He].
  - destruct (Hxs _ He) as [v Hv]. destruct (Hfail (str "[initialize]")) as [x Hx].
    congruence.
  - apply list_elem_of_singleton in He. subst e0. exists label. split; assumption.
Qed.

End Invocation.

(** ** Failed HTTP status *)

Section HttpStatus.
Context `{Python} `{Network}.


Lemma digits_value_from_digit a s acc k :
  Ascii.N_of_ascii a = 48 + k -> k < 10 ->
  digits_value_from acc (str (String.String a s))
  = digits_value_from (10 * acc + Z.of_N k)%Z (str s).
Proof.
  intros Ha Hk. unfold str. cbn [String.list_ascii_of_string map digits_value_from].
  rewrite Ha. replace (48 + k - 48) with k by lia.
  destruct (N.leb_spec 48 (48 + k)); [|lia].
  destruct (N.leb_spec (48 + k) 57); [reflexivity | lia].
Qed.

Ltac digit_step n :=
  rewrite digits_value_from_digit with (k := n) by reflexivity.

Lemma digits_value_from_acc d acc :
  digits_value_from (Z.pos acc) (str (NilEmpty.string_of_uint d))
  = Some (Z.pos (Pos.of_uint_acc d acc)).
Proof.
  revert acc. induction d as [|d IHd|d IHd|d IHd|d IHd|d IHd|d IHd|d IHd|d IHd|d IHd|d IHd];
    intros acc; [reflexivity|..];
    cbn [NilEmpty.string_of_uint Pos.of_uint_acc]; rewrite <- IHd;
    [digit_step 0 | digit_step 1 | digit_step 2 | digit_step 3 | digit_step 4
    | digit_step 5 | digit_step 6 | digit_step 7 | digit_step 8 | digit_step 9];
    f_equal; lia.
Qed.

Lemma digits_value_from_uint d :
  digits_value_from 0 (str (NilEmpty.string_of_uint d))
  = Some (Z.of_N (Pos.of_uint d)).
Proof.
  induction d as [|d IHd|d IHd|d IHd|d IHd|d IHd|d IHd|d IHd|d IHd|d IHd|d IHd];
    [reflexivity|..];
    cbn [NilEmpty.string_of_uint Pos.of_uint];
    [digit_step 0; exact IHd
    | digit_step 1 | digit_step 2 | digit_step 3 | digit_step 4
    | digit_step 5 | digit_step 6 | digit_step 7 | digit_step 8 | digit_step 9];
    cbn [Z.of_N]; rewrite <- digits_value_from_acc; reflexivity.
Qed.

(** [str(n)] of a positive integer is its decimal digits. *)
Lemma digits_value_of_Z z : (0 < z)%Z -> digits_value (of_Z z) = Some z.
Proof.
  destruct z as [|p|p]; try lia. intros _.
  unfold of_Z. cbn [Z.to_int NilZero.string_of_int].
  pose proof (DecimalPos.Unsigned.of_to p) as Hp.
  pose proof (digits_value_from_uint (Pos.to_uint p)) as Hd. rewrite Hp in Hd.
  unfold NilZero.string_of_uint.
  destruct (Pos.to_uint p) eqn:Hu; [discriminate Hp|..];
    unfold digits_value;
    (destruct (str (NilEmpty.string_of_uint _)) eqn:Hs; [discriminate Hd | exact Hd]).
Qed.

(** C3. Whenever a request of [invoke] is answered with a status of 400 or
    more and a body that is read as text, [invoke] raises the SDK's
    error, and its message carries the status code, in decimal digits,
    and the raw body of the response, or the reason phrase when the body
    is empty. This holds for every text and every JSON parser: the body
    is not decoded as JSON on this path. *)
Theorem http_status_fails tool_name params w e response :
  e ∈ exchanges_since w (invoke tool_name params w).2 ->
  got e = Replied response ->
  (400 <= status response)%Z ->
  exists label digits,
    invoke_label tool_name label
    /\ digits_value digits = Some (status response)
    /\ (invoke tool_name params w).1 =
         Raise (EntrezSDKError
                  (label ++ str " HTTP " ++ digits ++ str ": "
                   ++ (if str_truthy (text response) then text response
                       else match reason response with
                            | Some r => r
                            | None => str "None"
                            end))).
Proof.
  intros He Hgot Hs. unfold invoke in *.
  assert (Hfail : forall label,
             settle label (got e) =
               Raise (EntrezSDKError
                        (label ++ str " HTTP " ++ of_Z (status response) ++ str ": "
                         ++ body_or_reason response))).
  { intros label. rewrite Hgot. simpl. apply handle_response_http. exact Hs. }
  destruct (invoke_failing_exchange tool_name params w e He) as (label & Hl & Hr).
  - intros label. rewrite Hfail. eexists. reflexivity.
  - exists label, (of_Z (status response)). split; [exact Hl|].
    split; [apply digits_value_of_Z; lia|]. rewrite Hr. apply Hfail.
Qed.

End HttpStatus.

Lemma http_status_fails_witness :
  (exists label digits,
      invoke_label (str "entrez_query") label
      /\ digits_value digits = Some 404%Z
      /\ (@invoke RefJson.python (scripted [Replied not_found])
            (str "entrez_query") ∅ (fresh (str "http://localhost:8787"))).1 =
           Raise (EntrezSDKError
                    (label ++ str " HTTP " ++ digits ++ str ": "
                     ++ q "{'detail': 'no such route'}")))
  /\ (@invoke RefJson.python (scripted [Replied not_found])
        (str "entrez_query") ∅ (fresh (str "http://localhost:8787"))).1 =
       Raise (EntrezSDKError
                (q "[initialize] HTTP 404: {'detail': 'no such route'}")).
Proof.
  split.
  - apply (@http_status_fails RefJson.python (scripted [Replied not_found])
             (str "entrez_query") ∅ (fresh (str "http://localhost:8787"))
             (handshake_of (str "http://localhost:8787") (Replied not_found))
             not_found).
    + vm_compute. left.
    + reflexivity.
    + simpl. lia.
  - vm_compute. reflexivity.
Defined.

(** The status is looked at after the body is read: for a 404 whose body
    is not text in its encoding, [await response.text()] raises first,
    and the [UnicodeDecodeError] leaves [invoke] where the SDK's error
    with the status would. *)
Lemma undecodable_body_hides_status :
  exchanges_since (fresh localhost)
    (@invoke RefJson.python (scripted [Unread not_found_binary Undecodable])
       (str "entrez_query") ∅ (fresh localhost)).2
  = [handshake_of localhost (Unread not_found_binary Undecodable)]
  /\ (400 <= status not_found_binary)%Z
  /\ (@invoke RefJson.python (scripted [Unread not_found_binary Undecodable])
        (str "entrez_query") ∅ (fresh localhost)).1 = Raise UnicodeDecodeError
  /\ forall msg,
       (@invoke RefJson.python (scripted [Unread not_found_binary Undecodable])
          (str "entrez_query") ∅ (fresh localhost)).1
       <> Raise (EntrezSDKError msg).
Proof.
  split; [vm_compute; reflexivity|]. split; [simpl; lia|].
  assert (Hrun : (@invoke RefJson.python
                    (scripted [Unread not_found_binary Undecodable])
                    (str "entrez_query") ∅ (fresh localhost)).1
                 = Raise UnicodeDecodeError) by (vm_compute; reflexivity).
  split; [exact Hrun|]. intros msg. rewrite Hrun. discriminate.
Qed.

(** ** The session id over a run of invocations *)

Section Session.
Context `{Python} `{Network}.

Lemma _build_headers_ext a b :
  protocol_version a = protocol_version b ->
  session_id a = session_id b ->
  _build_headers a = _build_headers b.
Proof. intros Hp Hs. unfold _build_headers. rewrite Hp, Hs. reflexivity. Qed.

Lemma session_after_app sid xs ys :
  session_after sid (xs ++ ys) = session_after (session_after sid xs) ys.
Proof. apply fold_left_app. Qed.

Lemma session_after_snoc sid xs e :
  session_after sid (xs ++ [e]) =
    match supplied (got e) with
    | Some s => Some s
    | None => session_after sid xs
    end.
Proof. rewrite session_after_app. reflexivity. Qed.

Lemma follows_refl w : follows w [] w.
Proof.
  repeat split.
  - symmetry. apply app_nil_r.
  - intros i e Hi. rewrite lookup_nil in Hi. discriminate.
Qed.

Lemma follows_trans w xs w' ys w'' :
  follows w xs w' -> follows w' ys w'' -> follows w (xs ++ ys) w''.
Proof.
  intros (Hw & Hs & Hp & Hh) (Hw' & Hs' & Hp' & Hh').
  repeat split.
  - rewrite Hw', Hw. symmetry. apply app_assoc.
  - rewrite Hs', Hs. symmetry. apply session_after_app.
  - congruence.
  - intros i e Hi.
    destruct (decide (i < length xs)%nat) as [Hlt|Hge].
    + rewrite lookup_app_l in Hi by assumption.
      rewrite take_app_le by lia. apply Hh. assumption.
    + rewrite lookup_app_r in Hi by lia.
      rewrite take_app_ge by lia. rewrite session_after_app.
      rewrite (Hh' _ _ Hi). apply _build_headers_ext; simpl; congruence.
Qed.

Lemma follows_request context method params w :
  exists e, follows w [e] (_request_payload context method params w).2
            /\ (_request_payload context method params w).1
               = settle (_format_context context) (got e).
Proof.
  rewrite _request_payload_eq. simpl.
  set (request := post_request _ _). set (out := post (wire w) request).
  exists {| sent := request; got := out |}. split; [|reflexivity].
  repeat split.
  - simpl. destruct out as [response|msg|response failure]; simpl.
    + rewrite session_id_extract. reflexivity.
    + reflexivity.
    + rewrite session_id_extract. reflexivity.
  - simpl. destruct out as [response|msg|response failure]; simpl; [|reflexivity|];
      (unfold _extract_session_id;
       destruct (headers_get _ _) as [s|]; [|reflexivity];
       destruct (str_truthy s); reflexivity).
  - intros i e Hi. destruct i as [|i]; [|rewrite lookup_cons, lookup_nil in Hi; discriminate].
    injection Hi as <-. simpl. apply _build_headers_ext; reflexivity.
Qed.

Lemma follows_call tool_name params w :
  exists xs, follows w xs (_call tool_name params w).2.
Proof.
  destruct (session_truthy (session_id (sdk w))) eqn:Hs.
  - rewrite (_call_with_session _ _ _ Hs).
    destruct (follows_request tool_name (str "tools/call")
                (call_params tool_name params) w) as (e & He & _).
    exists [e]. exact He.
  - rewrite (_call_without_session _ _ _ Hs).
    destruct (follows_request (str "initialize") (str "initialize")
                (initialize_params (sdk w)) w) as (e & He & _).
    destruct (_request_payload (str "initialize") _ _ w) as [[v|x] w1]; simpl in *.
    + destruct (follows_request tool_name (str "tools/call")
                  (call_params tool_name params) w1) as (e' & He' & _).
      exists ([e] ++ [e']). eapply follows_trans; eassumption.
    + exists [e]. exact He.
Qed.

Lemma follows_run calls w :
  exists xs, follows w xs (run_calls calls w).
Proof.
  revert w. induction calls as [|[tool_name params] calls IH]; intros w; simpl.
  - exists []. apply follows_refl.
  - destruct (follows_call tool_name params w) as [xs Hxs].
    destruct (IH (_call tool_name params w).2) as [ys Hys].
    exists (xs ++ ys). eapply follows_trans; eassumption.
Qed.

(** The session id held is the one that the latest supplying response
    supplied. *)
Lemma session_after_Some sid xs s :
  session_after sid xs = Some s <->
    (exists pre e post,
        xs = pre ++ e :: post
        /\ supplied (got e) = Some s
        /\ forall e', e' ∈ post -> supplied (got e') = None)
    \/ (sid = Some s /\ forall e, e ∈ xs -> supplied (got e) = None).
Proof.
  induction xs as [|e xs IH] using rev_ind.
  - simpl. split.
    + intros ->. right. split; [reflexivity|]. intros e He. inversion He.
    + intros [(pre & e & post & Hx & _)|[Hs _]]; [|exact Hs].
      destruct pre; discriminate.
  - rewrite session_after_snoc. destruct (supplied (got e)) as [s'|] eqn:He.
    + split.
      * intros [= ->]. left. exists xs, e, []. repeat split; [assumption|].
        intros e' He'. inversion He'.
      * intros [(pre & e0 & post & Hx & Hs & Hnone)|[_ Hnone]].
        -- destruct post as [|p post _] using rev_ind.
           ++ apply app_inj_tail in Hx as [_ ->]. congruence.
           ++ rewrite app_comm_cons, app_assoc in Hx.
              apply app_inj_tail in Hx as [_ ->].
              rewrite Hnone in He; [discriminate|].
              apply elem_of_app. right. left.
        -- rewrite Hnone in He; [discriminate|]. apply elem_of_app. right. left.
    + rewrite IH. split.
      * intros [(pre & e0 & post & -> & Hs & Hnone)|[Hs Hnone]].
        -- left. exists pre, e0, (post ++ [e]). split; [|split; [assumption|]].
           { rewrite <- app_assoc. reflexivity. }
           intros e' [He'|He']%elem_of_app; [auto|].
           apply list_elem_of_singleton in He'. subst. assumption.
        -- right. split; [assumption|].
           intros e' [He'|He']%elem_of_app; [auto|].
           apply list_elem_of_singleton in He'. subst. assumption.
      * intros [(pre & e0 & post & Hx & Hs & Hnone)|[Hs Hnone]].
        -- left. destruct post as [|p post _] using rev_ind.
           ++ apply app_inj_tail in Hx as [_ ->]. congruence.
           ++ rewrite app_comm_cons, app_assoc in Hx.
              apply app_inj_tail in Hx as [-> ->].
              exists pre, e0, post. repeat split; [assumption|].
              intros e' He'. apply Hnone. apply elem_of_app. left. assumption.
        -- right. split; [assumption|]. intros e' He'. apply Hnone.
           apply elem_of_app. left. assumption.
Qed.

Lemma session_after_None xs :
  session_after None xs = None <-> forall e, e ∈ xs -> supplied (got e) = None.
Proof.
  induction xs as [|e xs IH] using rev_ind.
  - simpl. split; [|reflexivity]. intros _ e He. inversion He.
  - rewrite session_after_snoc. destruct (supplied (got e)) as [s|] eqn:He.
    + split; [discriminate|]. intros Hn. rewrite Hn in He; [discriminate|].
      apply elem_of_app. right. left.
    + rewrite IH. split.
      * intros Hn e' [He'|He']%elem_of_app; [auto|].
        apply list_elem_of_singleton in He'. subst. assumption.
      * intros Hn e' He'. apply Hn. apply elem_of_app. left. assumption.
Qed.

Lemma supplied_truthy out s : supplied out = Some s -> str_truthy s = true.
Proof.
  destruct out as [response|msg|response failure]; simpl; [|discriminate|];
    (destruct (headers_get _ _) as [s'|]; [|discriminate];
     destruct (str_truthy s') eqn:Ht; [|discriminate]; intros [= <-]; exact Ht).
Qed.

Lemma session_after_truthy sid xs :
  session_truthy sid = true -> session_truthy (session_after sid xs) = true.
Proof.
  intros Hs. induction xs as [|e xs IH] using rev_ind; [exact Hs|].
  rewrite session_after_snoc. destruct (supplied (got e)) as [s|] eqn:He; [|exact IH].
  simpl. eapply supplied_truthy. eassumption.
Qed.

End Session.

(** ** The headers of a request *)

Ltac key_ne :=
  let X := fresh in intros X; vm_compute in X; discriminate X.

Lemma _build_headers_fixed self :
  _build_headers self !! str "Content-Type" = Some (str "application/json")
  /\ _build_headers self !! str "Accept"
     = Some (str "application/json, text/event-stream")
  /\ _build_headers self !! str "MCP-Protocol-Version"
     = Some (protocol_version self).
Proof.
  assert (Hfixed :
    forall h : gmap pystr pystr,
      h = <[str "MCP-Protocol-Version" := protocol_version self]>
            (<[str "Accept" := str "application/json, text/event-stream"]>
               (<[str "Content-Type" := str "application/json"]> ∅)) ->
      h !! str "Content-Type" = Some (str "application/json")
      /\ h !! str "Accept" = Some (str "application/json, text/event-stream")
      /\ h !! str "MCP-Protocol-Version" = Some (protocol_version self)).
  { intros h ->. split; [|split].
    - rewrite lookup_insert_ne by key_ne. rewrite lookup_insert_ne by key_ne.
      apply lookup_insert_eq.
    - rewrite lookup_insert_ne by key_ne. apply lookup_insert_eq.
    - apply lookup_insert_eq. }
  unfold _build_headers. destruct (session_id self) as [sid|]; [|auto].
  destruct (str_truthy sid); [|auto].
  destruct (Hfixed _ eq_refl) as (H1 & H2 & H3).
  repeat split; (rewrite lookup_insert_ne by key_ne); assumption.
Qed.

Lemma _build_headers_session self :
  _build_headers self !! str "Mcp-Session-Id" =
    if session_truthy (session_id self) then session_id self else None.
Proof.
  assert (Hnone :
    (<[str "MCP-Protocol-Version" := protocol_version self]>
       (<[str "Accept" := str "application/json, text/event-stream"]>
          (<[str "Content-Type" := str "application/json"]> ∅))
     : gmap pystr pystr) !! str "Mcp-Session-Id" = None).
  { repeat (rewrite lookup_insert_ne by key_ne). apply lookup_empty. }
  unfold _build_headers, session_truthy.
  destruct (session_id self) as [sid|]; [|exact Hnone].
  destruct (str_truthy sid); [apply lookup_insert_eq | exact Hnone].
Qed.

Section SessionClaims.
Context `{Python} `{Network}.

Lemma session_after_None_truthy xs s :
  session_after None xs = Some s -> str_truthy s = true.
Proof.
  intros [(pre & e & post & _ & Hs & _)|[Hs _]]%session_after_Some; [|discriminate].
  eapply supplied_truthy. eassumption.
Qed.

Lemma wire_of_fresh_run url calls :
  follows (fresh url) (wire (run_calls calls (fresh url))) (run_calls calls (fresh url)).
Proof.
  destruct (follows_run calls (fresh url)) as [xs Hxs].
  assert (Hw : wire (run_calls calls (fresh url)) = xs) by (destruct Hxs as [-> _]; reflexivity).
  rewrite Hw. exact Hxs.
Qed.

(** C7, as the code has it. A client holds no session id when it is
    constructed. After any run of invocations it holds the session id that
    the latest response with a non-empty session header supplied: the first
    such response sets it, a later one with another value replaces it, and
    a response without one leaves it as it is; it holds none exactly when
    no response supplied one. *)
Theorem session_id_lifecycle url calls :
  let w := run_calls calls (fresh url) in
  session_id (sdk (fresh url)) = None
  /\ (forall s,
        session_id (sdk w) = Some s <->
          exists pre e post,
            wire w = pre ++ e :: post
            /\ supplied (got e) = Some s
            /\ forall e', e' ∈ post -> supplied (got e') = None)
  /\ (session_id (sdk w) = None <->
        forall e, e ∈ wire w -> supplied (got e) = None).
Proof.
  intros w. split; [reflexivity|].
  destruct (wire_of_fresh_run url calls) as (_ & Hs & _). fold w in Hs.
  simpl in Hs. rewrite Hs. split.
  - intros s. rewrite session_after_Some. split.
    + intros [Hl|[Hn _]]; [exact Hl | discriminate].
    + intros Hl. left. exact Hl.
  - apply session_after_None.
Qed.

(** C8, as the code has it. Every request of a client carries the content
    type, the accept value with both media types and the protocol version;
    its session header is the session id that the latest response before it
    supplied, and is absent only while none did. A newly constructed client
    holds no session id. *)
Theorem requests_carry_session url calls pre e post :
  wire (run_calls calls (fresh url)) = pre ++ e :: post ->
  req_headers (sent e) !! str "Content-Type" = Some (str "application/json")
  /\ req_headers (sent e) !! str "Accept"
     = Some (str "application/json, text/event-stream")
  /\ req_headers (sent e) !! str "MCP-Protocol-Version" = Some (str "2025-11-25")
  /\ req_headers (sent e) !! str "Mcp-Session-Id" = session_after None pre
  /\ (forall pre1 e0 pre2 s,
        pre = pre1 ++ e0 :: pre2 ->
        supplied (got e0) = Some s ->
        (forall e', e' ∈ pre2 -> supplied (got e') = None) ->
        req_headers (sent e) !! str "Mcp-Session-Id" = Some s)
  /\ (forall url', session_id (sdk (fresh url')) = None).
Proof.
  intros Hw.
  destruct (wire_of_fresh_run url calls) as (_ & _ & _ & Hh).
  specialize (Hh (length pre) e). rewrite Hw in Hh.
  rewrite list_lookup_middle in Hh by reflexivity.
  rewrite take_app_length in Hh. specialize (Hh eq_refl). simpl in Hh.
  assert (Hsid : req_headers (sent e) !! str "Mcp-Session-Id" = session_after None pre).
  { rewrite Hh, _build_headers_session. simpl.
    destruct (session_after None pre) as [s|] eqn:Hs; [|reflexivity].
    simpl. rewrite (session_after_None_truthy _ _ Hs). reflexivity. }
  destruct (_build_headers_fixed
              (set_session_id (__init__ url) (session_after None pre)))
    as (H1 & H2 & H3).
  rewrite Hh. repeat split; try assumption.
  - rewrite <- Hh, Hsid. reflexivity.
  - intros pre1 e0 pre2 s -> Hs Hnone. rewrite <- Hh, Hsid.
    apply session_after_Some. left. exists pre1, e0, pre2. auto.
Qed.

End SessionClaims.

(** The first invocation of a new client shakes hands and learns the
    session id A; the reply to its second invocation carries B, and the
    client now holds B. *)
Lemma session_id_replaced :
  let w1 := @run_calls RefJson.python reissuing [status_call] (fresh localhost) in
  let w2 := @run_calls RefJson.python reissuing [status_call; status_call]
              (fresh localhost) in
  length (wire w1) = 2%nat
  /\ session_id (sdk w1) = Some (str "A")
  /\ length (wire w2) = 3%nat
  /\ session_id (sdk w2) = Some (str "B")
  /\ session_id (sdk w2) <> session_id (sdk w1).
Proof. vm_compute. repeat split; discriminate. Qed.

(** The first reply supplied A, yet the fourth request, sent after the
    third reply supplied B, carries B. *)
Lemma later_request_carries_later_id :
  let w := @run_calls RefJson.python reissuing
             [status_call; status_call; status_call] (fresh localhost) in
  (exists e0, wire w !! 0%nat = Some e0 /\ supplied (got e0) = Some (str "A"))
  /\ session_header_sent w 1 = Some (str "A")
  /\ session_header_sent w 3 = Some (str "B")
  /\ session_header_sent w 3 <> Some (str "A").
Proof.
  vm_compute. split; [eexists; split; reflexivity|].
  repeat split; discriminate.
Qed.

Lemma requests_carry_session_witness :
  req_headers (sent (exchange_at first_run 1)) !! str "Mcp-Session-Id"
  = session_after None [exchange_at first_run 0].
Proof.
  refine (proj1 (proj2 (proj2 (proj2
    (@requests_carry_session RefJson.python reissuing localhost [status_call]
       [exchange_at first_run 0] (exchange_at first_run 1) [] _))))).
  vm_compute. reflexivity.
Defined.

(** ** A session id on a failing response *)

Section SessionOnFailure.
Context `{Python} `{Network}.


Lemma session_after_invoke tool_name params w :
  session_id (sdk (_call tool_name params w).2) =
    session_after (session_id (sdk w))
      (exchanges_since w (_call tool_name params w).2).
Proof.
  destruct (follows_call tool_name params w) as (xs & Hw & Hs & _).
  rewrite (exchanges_since_invoke _ _ _ _ Hw). exact Hs.
Qed.





End SessionOnFailure.


Example failed_status_message :
  (@invoke RefJson.python (scripted [Replied unavailable])
     (str "entrez_query") ∅ (fresh localhost)).1
  = Raise (EntrezSDKError (str "[initialize] HTTP 503: Service Unavailable")).
Proof. vm_compute. reflexivity. Qed.

(** ** Results: error sentinels and reshaping *)

Section Results.
Context `{Python} `{Network}.

Lemma is_error_block_inv block :
  is_error_block block = true ->
  exists b t,
    block = JDict b
    /\ b !! str "type" = Some (JStr (str "text"))
    /\ b !! str "text" = Some (JStr t)
    /\ startswith (strip t) ERROR_MARKER = true
    /\ block_text block = strip t.
Proof.
  destruct block as [| | | | |l|b]; try discriminate. simpl.
  destruct (b !! str "type") as [[| | | |ty| |]|] eqn:Hty; try discriminate.
  destruct (b !! str "text") as [[| | | |t| |]|] eqn:Htx;
    try (rewrite andb_false_r; discriminate).
  intros [Heq Hm]%andb_true_iff. apply bool_decide_eq_true in Heq. subst ty.
  exists b, t. rewrite Htx. auto.
Qed.

Lemma any_error_block_split content :
  any_error_block content = true ->
  exists pre block post,
    content = pre ++ block :: post
    /\ any_error_block pre = false
    /\ is_error_block block = true
    /\ first_error_text content = Some (block_text block).
Proof.
  induction content as [|b content IH]; [discriminate|]. simpl.
  destruct (is_error_block b) eqn:Hb.
  - intros _. exists [], b, content. auto.
  - intros Hc. destruct (IH Hc) as (pre & block & post & -> & Hpre & Hblock & Hfirst).
    exists (b :: pre), block, post. simpl. rewrite Hb. auto.
Qed.


(** C10. Whenever the sentinel check accepts a payload, the formatter
    finds a block that passes the same test and returns its trimmed text:
    its search for a sentinel cannot come back empty, so neither the join
    of all texts nor the literal [Unknown error] is ever produced for a
    payload that the pipeline hands to it. *)
Theorem formatter_returns_sentinel_text payload :
  _is_error_payload payload = true ->
  exists content pre b t post,
    payload !! str "content" = Some (JList content)
    /\ content = pre ++ JDict b :: post
    /\ any_error_block pre = false
    /\ b !! str "type" = Some (JStr (str "text"))
    /\ b !! str "text" = Some (JStr t)
    /\ startswith (strip t) ERROR_MARKER = true
    /\ first_error_text content = Some (strip t)
    /\ _format_payload_error payload = strip t.
Proof.
  unfold _is_error_payload, _format_payload_error.
  destruct (payload !! str "content") as [[| | | | |content|]|]; try discriminate.
  intros Hc.
  destruct (any_error_block_split content Hc)
    as (pre & block & post & -> & Hpre & Hblock & Hfirst).
  destruct (is_error_block_inv block Hblock) as (b & t & -> & Hty & Htx & Hm & Ht).
  exists (pre ++ JDict b :: post), pre, b, t, post.
  rewrite Hfirst, Ht. repeat split; assumption.
Qed.

Lemma truthy_dict_lookup (d : gmap pystr json) k v :
  d !! k = Some v -> truthy (JDict d) = true.
Proof.
  intros Hk. simpl. apply negb_true_iff, bool_decide_eq_false.
  intros Hsize. apply map_size_empty_iff in Hsize. subst d.
  rewrite lookup_empty in Hk. discriminate.
Qed.

Lemma handle_response_payload label response d p :
  (status response < 400)%Z ->
  _parse_response_text (text response) = Return (JDict d) ->
  d !! str "error" = None ->
  d !! str "result" = Some (JDict p) ->
  handle_response label response =
    if truthy (JDict p) && _is_error_payload p
    then Raise (EntrezSDKError (label ++ str " " ++ _format_payload_error p))
    else Return (normalize p).
Proof.
  intros Hs Hparse Herr Hres. unfold handle_response.
  destruct (Z.leb_spec 400 (status response)); [lia|].
  rewrite Hparse. rewrite (truthy_dict_lookup _ _ _ Hres). simpl has_error.
  rewrite Herr. rewrite bool_decide_eq_false_2 by (intros [? ?]; discriminate).
  rewrite Hres. reflexivity.
Qed.

(** The result of an invocation is the result of its last exchange. *)
Lemma invoke_last tool_name params w :
  exists earlier e label,
    wire (_call tool_name params w).2 = earlier ++ [e]
    /\ invoke_label tool_name label
    /\ (_call tool_name params w).1 = settle label (got e).
Proof.
  destruct (invoke_wire tool_name params w) as (xs & e & label & Hw & Hl & Hr & _).
  exists (wire w ++ xs), e, label. split; [|split; assumption].
  rewrite Hw. apply app_assoc.
Qed.


(** C2, as the code has it. When the last exchange of [invoke] is answered
    with a status below 400 and an envelope without an [error] field whose
    [result] is a dict that carries no error sentinel, [invoke] returns:
    for a [structuredContent] that is a dict, that dict with [content]
    set to the result's [content] when the result has one (replacing a
    [content] of its own); for a [structuredContent] that is not a dict,
    a dict holding only [content] when the result has one, and the
    [structuredContent] itself otherwise; without [structuredContent], the
    result as it is. *)
Theorem result_reshaped tool_name params w earlier e response d p :
  wire (invoke tool_name params w).2 = earlier ++ [e] ->
  got e = Replied response ->
  (status response < 400)%Z ->
  _parse_response_text (text response) = Return (JDict d) ->
  d !! str "error" = None ->
  d !! str "result" = Some (JDict p) ->
  _is_error_payload p = false ->
  (invoke tool_name params w).1 =
    Return
      match p !! str "structuredContent", p !! str "content" with
      | Some (JDict structured), Some content =>
          JDict (<[str "content" := content]> structured)
      | Some (JDict structured), None => JDict structured
      | Some _, Some content => JDict {[str "content" := content]}
      | Some structured, None => structured
      | None, _ => JDict p
      end.
Proof.
  intros Hlast Hgot Hs Hparse Herr Hres Hnot. unfold invoke in *.
  destruct (invoke_last tool_name params w) as (earlier' & e' & label & Hlast' & _ & Hr).
  rewrite Hlast in Hlast'. apply app_inj_tail in Hlast' as [_ <-].
  rewrite Hr, Hgot. simpl.
  rewrite (handle_response_payload label response d p Hs Hparse Herr Hres).
  rewrite Hnot, andb_false_r. unfold normalize.
  destruct (p !! str "structuredContent") as [[| | | | | |sc]|];
    destruct (p !! str "content"); reflexivity.
Qed.

End Results.



Lemma formatter_returns_sentinel_text_witness :
  exists content pre b t post,
    result_of sentinel_reply !! str "content" = Some (JList content)
    /\ content = pre ++ JDict b :: post
    /\ any_error_block pre = false
    /\ b !! str "type" = Some (JStr (str "text"))
    /\ b !! str "text" = Some (JStr t)
    /\ startswith (strip t) ERROR_MARKER = true
    /\ first_error_text content = Some (strip t)
    /\ _format_payload_error (result_of sentinel_reply) = strip t.
Proof.
  apply (formatter_returns_sentinel_text (result_of sentinel_reply)).
  vm_compute. reflexivity.
Defined.

(** A structured part that is a list is dropped when the result has a
    [content]: what comes back holds the content alone. *)
Lemma list_structured_content_dropped :
  (query_run list_structured_reply).1 =
    Return (JDict {[str "content" := JList [JDict (text_block (str "two ids"))]]})
  /\ result_of list_structured_reply !! str "structuredContent"
     = Some (JList [JInt 1; JInt 2])
  /\ (query_run list_structured_reply).1 <> Return (JList [JInt 1; JInt 2]).
Proof. vm_compute. repeat split; discriminate. Qed.

Lemma result_reshaped_witness :
  (@invoke RefJson.python (answering structured_reply)
     (str "entrez_query") ∅ (fresh localhost)).1 =
    Return (JDict (<[str "content" := JList [JDict (text_block (str "one"))]]>
                   (<[str "a" := JInt 1]> ∅))).
Proof.
  refine (eq_trans
    (@result_reshaped RefJson.python (answering structured_reply)
       (str "entrez_query") ∅ (fresh localhost)
       [exchange_at (query_run structured_reply).2 0]
       (exchange_at (query_run structured_reply).2 1) structured_reply
       (envelope_of structured_reply) (result_of structured_reply)
       _ _ _ _ _ _ _) _).
  - vm_compute. reflexivity.
  - reflexivity.
  - simpl. lia.
  - vm_compute. reflexivity.
  - vm_compute. reflexivity.
  - vm_compute. reflexivity.
  - vm_compute. reflexivity.
  - vm_compute. reflexivity.
Defined.

(** ** The arguments of a tool call *)

Section Arguments.
Context `{Python} `{Network}.

Lemma cleaned_params_lookup params k :
  cleaned_params params !! k =
    match params !! k with
    | Some JNull => None
    | other => other
    end.
Proof.
  unfold cleaned_params. destruct (params !! k) as [v|] eqn:Hk.
  - destruct v;
      first [ apply map_lookup_filter_None; right; intros x Hx;
              rewrite Hk in Hx; injection Hx as <-; simpl; discriminate
            | apply map_lookup_filter_Some; split; [exact Hk | reflexivity] ].
  - apply map_lookup_filter_None. left. exact Hk.
Qed.


End Arguments.


(** What goes out for those parameters: the key left out is gone, the
    false flag, the zero and the empty string are sent. *)
Example search_arguments_sent :
  cleaned_params search_params =
    <[str "usehistory" := JBool false]>
    (<[str "retstart" := JInt 0]>
    (<[str "term" := JStr []]> ∅)).
Proof. vm_compute. reflexivity. Qed.

(** ** Facts about the string methods *)

Section Strings.

Lemma lower_char_colon c : (lower_char c =? 58) = (c =? 58).
Proof.
  unfold lower_char.
  destruct (N.leb_spec 65 c), (N.leb_spec c 90); simpl; try reflexivity.
  destruct (N.eqb_spec (c + 32) 58), (N.eqb_spec c 58); try reflexivity; lia.
Qed.

Lemma lower_char_not_colon c d :
  (d =? lower_char c) = true -> d <> 58 -> (c =? 58) = false.
Proof.
  intros Heq Hd. apply N.eqb_eq in Heq. rewrite <- lower_char_colon, <- Heq.
  apply N.eqb_neq. exact Hd.
Qed.

(** The first colon of a data line is the one that ends [data:]. *)
Lemma split_once_data x :
  startswith (lower x) (str "data:") = true ->
  split_once 58 x = [take 4 x; drop 5 x].
Proof.
  destruct x as [|c0 [|c1 [|c2 [|c3 [|c4 rest]]]]];
    try (intros Hx; simpl in Hx; rewrite ?andb_false_r in Hx; discriminate Hx).
  change (startswith (lower (c0 :: c1 :: c2 :: c3 :: c4 :: rest)) (str "data:"))
    with ((100 =? lower_char c0) && ((97 =? lower_char c1)
          && ((116 =? lower_char c2) && ((97 =? lower_char c3)
          && ((58 =? lower_char c4) && true))))).
  intros (H0 & (H1 & (H2 & (H3 & (H4 & _)%andb_true_iff)%andb_true_iff)%andb_true_iff)%andb_true_iff)%andb_true_iff.
  unfold split_once. simpl.
  rewrite (lower_char_not_colon c0 100 H0) by discriminate.
  rewrite (lower_char_not_colon c1 97 H1) by discriminate.
  rewrite (lower_char_not_colon c2 116 H2) by discriminate.
  rewrite (lower_char_not_colon c3 97 H3) by discriminate.
  rewrite N.eqb_sym, lower_char_colon in H4. rewrite H4. reflexivity.
Qed.

Lemma lstrip_app_nonspace u c v :
  is_space c = false -> lstrip (u ++ c :: v) = lstrip u ++ c :: v.
Proof.
  intros Hc. induction u as [|a u IH]; simpl.
  - rewrite Hc. reflexivity.
  - destruct (is_space a); [exact IH | reflexivity].
Qed.


Lemma lstrip_nil_iff s : lstrip s = [] <-> forallb is_space s = true.
Proof.
  induction s as [|a s IH]; simpl; [tauto|].
  destruct (is_space a); simpl; [exact IH|]. split; discriminate.
Qed.

Lemma forallb_rev {A} (f : A -> bool) l : forallb f (rev l) = forallb f l.
Proof.
  induction l as [|a l IH]; simpl; [reflexivity|].
  rewrite forallb_app, IH. simpl. rewrite andb_true_r. apply andb_comm.
Qed.

Lemma lstrip_cases s :
  lstrip s = []
  \/ exists u c v, s = u ++ c :: v /\ lstrip u = [] /\ is_space c = false.
Proof.
  induction s as [|a s IH]; [left; reflexivity|].
  destruct (is_space a) eqn:Ha.
  - simpl. rewrite Ha. destruct IH as [Hn|(u & c & v & -> & Hu & Hc)].
    + left. exact Hn.
    + right. exists (a :: u), c, v. simpl. rewrite Ha. auto.
  - right. exists [], a, s. auto.
Qed.

Lemma rstrip_app_nonspace a c b :
  is_space c = false -> rstrip (a ++ c :: b) = a ++ c :: rstrip b.
Proof.
  intros Hc. unfold rstrip. rewrite rev_app_distr. simpl rev.
  rewrite <- app_assoc. simpl. rewrite (lstrip_app_nonspace _ _ _ Hc).
  rewrite rev_app_distr. simpl. rewrite rev_involutive, <- app_assoc.
  reflexivity.
Qed.


Lemma rstrip_space s : lstrip s = [] -> rstrip s = [].
Proof.
  intros Hs%lstrip_nil_iff. unfold rstrip.
  assert (Hr : lstrip (rev s) = []) by (apply lstrip_nil_iff; rewrite forallb_rev; exact Hs).
  rewrite Hr. reflexivity.
Qed.

Lemma lstrip_rstrip s : lstrip (rstrip s) = rstrip (lstrip s).
Proof.
  destruct (lstrip_cases s) as [Hn|(u & c & v & -> & Hu & Hc)].
  - rewrite Hn, (rstrip_space _ Hn). reflexivity.
  - rewrite (rstrip_app_nonspace _ _ _ Hc), !(lstrip_app_nonspace _ _ _ Hc), Hu.
    simpl. symmetry. apply (rstrip_app_nonspace [] c v Hc).
Qed.

Lemma lstrip_idem s : lstrip (lstrip s) = lstrip s.
Proof.
  induction s as [|a s IH]; simpl; [reflexivity|].
  destruct (is_space a) eqn:Ha; [exact IH|]. simpl. rewrite Ha. reflexivity.
Qed.

Lemma rstrip_idem s : rstrip (rstrip s) = rstrip s.
Proof. unfold rstrip. rewrite rev_involutive, lstrip_idem. reflexivity. Qed.

Lemma strip_idem s : strip (strip s) = strip s.
Proof.
  unfold strip. rewrite lstrip_rstrip, lstrip_idem. apply rstrip_idem.
Qed.

(** Stripping a line that starts with a character that is not white space
    and ends with one changes nothing. *)
Lemma strip_delimited a body b :
  is_space a = false -> is_space b = false ->
  strip (a :: body ++ [b]) = a :: body ++ [b].
Proof.
  intros Ha Hb. unfold strip. simpl. rewrite Ha.
  change (a :: body ++ [b]) with ((a :: body) ++ b :: []).
  rewrite (rstrip_app_nonspace _ _ _ Hb). reflexivity.
Qed.




End Strings.

(** ** Decoding server-sent events *)

Section Decoding.
Context `{Python}.

Lemma collect_data_lines_cons line rest acc :
  collect_data_lines (line :: rest) acc =
    if is_data_line line then
      match split_once 58 (strip line) with
      | [_; value] => collect_data_lines rest (acc ++ [lstrip value])
      | _ => Raise ValueError
      end
    else collect_data_lines rest acc.
Proof. reflexivity. Qed.

Lemma collect_data_lines_eq lines acc :
  collect_data_lines lines acc =
    Return (acc ++ map data_value (List.filter is_data_line lines)).
Proof.
  revert acc. induction lines as [|line lines IH]; intros acc.
  - simpl. rewrite app_nil_r. reflexivity.
  - rewrite collect_data_lines_cons. cbn [List.filter].
    destruct (is_data_line line) eqn:Hd.
    + unfold is_data_line in Hd. rewrite (split_once_data _ Hd), IH.
      cbn [map]. rewrite <- app_assoc. reflexivity.
    + apply IH.
Qed.

Lemma parse_segments_eq segments :
  parse_segments segments = first_payload segment_payload segments.
Proof.
  induction segments as [|segment rest IH]; simpl; [reflexivity|].
  rewrite collect_data_lines_eq. simpl. unfold segment_payload.
  fold (data_lines_of segment). rewrite IH.
  destruct (data_lines_of segment) as [|l ls]; [reflexivity|].
  destruct (json_loads (join [10] (l :: ls))) as [[v|x]|]; reflexivity.
Qed.





End Decoding.



(** ** One event, line by line *)

Section Lines.























End Lines.

(** ** Decoding what was serialized *)

Section RoundTrip.
Context `{Python}.






End RoundTrip.



Example event_on_the_wire :
  sse_event indented_lines = q "data: {'a':
data:     1}

".
Proof. reflexivity. Qed.

(** * Further properties of the SDK *)

(** ** The label of an operation *)

Section Label.

Lemma endswith_snoc s c : endswith (s ++ [c]) [c] = true.
Proof.
  unfold endswith. rewrite rev_app_distr. simpl. rewrite N.eqb_refl. reflexivity.
Qed.

(** X1. The label that [_format_context] makes of an operation name is
    always in square brackets and has no white space around it; a name
    that comes in brackets already is not bracketed again, so labelling a
    label changes nothing, and white space around the name does not
    count. *)
Theorem format_context_bracketed context :
  startswith (_format_context context) (str "[") = true
  /\ endswith (_format_context context) (str "]") = true
  /\ strip (_format_context context) = _format_context context
  /\ _format_context (_format_context context) = _format_context context
  /\ _format_context (strip context) = _format_context context.
Proof.
  assert (Hstrip : _format_context (strip context) = _format_context context).
  { unfold _format_context. rewrite strip_idem. reflexivity. }
  split; [|split; [|split; [|split; [|exact Hstrip]]]]; clear Hstrip;
    unfold _format_context; set (s := strip context);
    destruct (startswith s (str "[") && endswith s (str "]")) eqn:Hb;
    try (apply andb_true_iff in Hb as [Hl Hr]).
  - exact Hl.
  - reflexivity.
  - exact Hr.
  - apply (endswith_snoc (91 :: s) 93).
  - apply strip_idem.
  - apply (strip_delimited 91 s 93); reflexivity.
  - unfold s at 1 2 3. rewrite strip_idem. fold s. rewrite Hl, Hr. reflexivity.
  - change (str "[" ++ s ++ str "]") with (91 :: s ++ [93]).
    rewrite (strip_delimited 91 s 93) by reflexivity.
    change (endswith (91 :: s ++ [93]) (str "]"))
      with (endswith ((91 :: s) ++ [93]) [93]).
    rewrite endswith_snoc. reflexivity.
Qed.

End Label.

(** ** The message of a payload error *)

Section Formatter.

Lemma first_error_text_marked content t :
  first_error_text content = Some t ->
  strip t = t /\ startswith t ERROR_MARKER = true.
Proof.
  induction content as [|block content IH]; [discriminate|]. simpl.
  destruct (is_error_block block) eqn:Hb; [|exact IH].
  destruct (is_error_block_inv block Hb) as (b & t' & _ & _ & _ & Hm & Ht).
  intros [= <-]. rewrite Ht. split; [apply strip_idem | exact Hm].
Qed.

(** X2. Whatever payload it is given, [_format_payload_error] returns a
    message that is not empty and has no white space around it; for a
    payload whose [content] is missing or is not a list the message is
    [Unknown error]. *)
Theorem format_payload_error_message payload :
  _format_payload_error payload <> []
  /\ strip (_format_payload_error payload) = _format_payload_error payload
  /\ ((forall content, payload !! str "content" <> Some (JList content)) ->
      _format_payload_error payload = str "Unknown error").
Proof.
  unfold _format_payload_error.
  destruct (payload !! str "content") as [[| | | | |content|]|] eqn:Hc;
    try (split; [discriminate | split; [reflexivity | intros _; reflexivity]]).
  destruct (first_error_text content) as [t|] eqn:Hf.
  - destruct (first_error_text_marked content t Hf) as [Hs Hm].
    split; [|split].
    + intros ->. discriminate Hm.
    + exact Hs.
    + intros Hno. destruct (Hno content eq_refl).
  - set (combined := strip (join (str " ") (stripped_texts content))).
    assert (Hidem : strip combined = combined) by apply strip_idem.
    destruct combined as [|c combined']; simpl str_truthy; cbv iota.
    + split; [discriminate|]. split; [reflexivity|].
      intros Hno. destruct (Hno content eq_refl).
    + split; [discriminate|]. split; [exact Hidem|].
      intros Hno. destruct (Hno content eq_refl).
Qed.

End Formatter.

(** ** What the decoder can raise *)

Section DecoderErrors.
Context `{Python}.

Lemma first_payload_raise payload_of segments x :
  first_payload payload_of segments = Raise x <->
    (exists before segment after,
        segments = before ++ segment :: after
        /\ (forall s, s ∈ before -> payload_of s = None)
        /\ payload_of segment = Some (Raise x))
    \/ (x = EntrezSDKError NO_SSE_PAYLOAD
        /\ forall s, s ∈ segments -> payload_of s = None).
Proof.
  induction segments as [|segment rest IH]; simpl.
  - split.
    + intros [= <-]. right. split; [reflexivity|]. intros s Hs. inversion Hs.
    + intros [(before & segment & after & Hnil & _)|[-> _]]; [|reflexivity].
      destruct before; discriminate Hnil.
  - destruct (payload_of segment) as [r|] eqn:Hr.
    + split.
      * intros ->. left. exists [], segment, rest.
        split; [reflexivity|]. split; [|exact Hr]. intros s Hs. inversion Hs.
      * intros [(before & seg & after & Hsplit & Hbefore & Hseg)|[_ Hnone]].
        -- destruct before as [|b before]; injection Hsplit as <- ->.
           ++ congruence.
           ++ rewrite (Hbefore segment) in Hr by left. discriminate Hr.
        -- rewrite (Hnone segment) in Hr by left. discriminate Hr.
    + rewrite IH. split.
      * intros [(before & seg & after & -> & Hbefore & Hseg)|[Hx Hnone]].
        -- left. exists (segment :: before), seg, after.
           split; [reflexivity|]. split; [|exact Hseg].
           intros s [->|Hs]%elem_of_cons; [exact Hr | apply Hbefore, Hs].
        -- right. split; [exact Hx|].
           intros s [->|Hs]%elem_of_cons; [exact Hr | apply Hnone, Hs].
      * intros [(before & seg & after & Hsplit & Hbefore & Hseg)|[Hx Hnone]].
        -- left. destruct before as [|b before]; injection Hsplit as <- ->.
           ++ congruence.
           ++ exists before, seg, after. split; [reflexivity|].
              split; [|exact Hseg]. intros s Hs. apply Hbefore. right. exact Hs.
        -- right. split; [exact Hx|]. intros s Hs. apply Hnone. right. exact Hs.
Qed.

(** X3. What decoding a body can raise. An exception that [json.loads]
    raises itself and that is not [json.JSONDecodeError] leaves the
    decoder as it is, from the trimmed body or, when that is not JSON,
    from the data of the first segment that is not refused as JSON. Apart
    from that the decoder raises only the SDK's error [No JSON payload
    found in SSE response], and it does so exactly when the trimmed body
    is not empty, is not JSON, and has no segment whose data lines parse.
    Nothing else leaves it: the [ValueError] of the unpacking of
    [split(':', 1)] never arises. *)
Theorem decoder_exceptions body x :
  _parse_response_text body = Raise x <->
    strip body <> []
    /\ (json_loads (strip body) = Some (Raise x)
        \/ json_loads (strip body) = None
           /\ ((exists before segment after,
                   sse_segments (strip body) = before ++ segment :: after
                   /\ (forall s, s ∈ before -> segment_payload s = None)
                   /\ segment_payload segment = Some (Raise x))
               \/ (x = EntrezSDKError NO_SSE_PAYLOAD
                   /\ forall s, s ∈ sse_segments (strip body) ->
                                segment_payload s = None))).
Proof.
  unfold _parse_response_text, _parse_sse_payload.
  destruct (strip body) as [|c trimmed] eqn:Ht.
  - simpl. split; [discriminate|]. intros [Hne _]. congruence.
  - simpl str_truthy. cbv iota.
    destruct (json_loads (c :: trimmed)) as [[v|y]|] eqn:Hj.
    + split; [discriminate|]. intros [_ [Hr|[Hn _]]]; discriminate.
    + split.
      * intros [= ->]. split; [discriminate|]. left. reflexivity.
      * intros [_ [Hr|[Hn _]]]; [congruence | discriminate].
    + rewrite parse_segments_eq, first_payload_raise. split.
      * intros Hseg. split; [discriminate|]. right. split; [reflexivity | exact Hseg].
      * intros [_ [Hr|[_ Hseg]]]; [discriminate | exact Hseg].
Qed.

End DecoderErrors.

(** An integer literal of 4301 digits is more than [json.loads] converts:
    its [ValueError] is not a [json.JSONDecodeError], so neither decoder
    catches it. *)
Example long_integer_leaves_decoder :
  @_parse_response_text RefJson.python (replicate 4301 49) = Raise ValueError.
Proof. vm_compute. reflexivity. Qed.

(** ** The other ways a request ends *)

Section Endings.
Context `{Python} `{Network}.

Lemma parse_raise_inv body x :
  _parse_response_text body = Raise x ->
  x = EntrezSDKError NO_SSE_PAYLOAD
  \/ json_loads (strip body) = Some (Raise x)
  \/ exists s, s ∈ sse_segments (strip body) /\ segment_payload s = Some (Raise x).
Proof.
  unfold _parse_response_text, _parse_sse_payload.
  destruct (str_truthy (strip body)); [|discriminate].
  destruct (json_loads (strip body)) as [[v|y]|]; [discriminate| |].
  - intros [= ->]. right. left. reflexivity.
  - rewrite parse_segments_eq.
    intros [(before & segment & after & Hsplit & _ & Hseg)|[Hx _]]%first_payload_raise.
    + right. right. exists segment. split; [|exact Hseg].
      rewrite Hsplit. apply elem_of_app. right. left.
    + left. exact Hx.
Qed.

(** What the pipeline does with a decoded body, once the status is below
    400. *)
Lemma handle_response_decoded label response result :
  (status response < 400)%Z ->
  _parse_response_text (text response) = Return result ->
  handle_response label response =
    match (if truthy result then has_error result else Return false) with
    | Raise e => Raise e
    | Return true =>
        match get_error result with
        | Raise e => Raise e
        | Return (JDict e) =>
            Raise (EntrezSDKError
                     (label ++ str " MCP Error: "
                      ++ format_value (default (JStr (json_dumps (JDict e)))
                                               (e !! str "message"))))
        | Return _ => Raise AttributeError
        end
    | Return false =>
        match (match result with
               | JDict d => default JNull (d !! str "result")
               | _ => JNull
               end) with
        | JDict p =>
            if truthy (JDict p) && _is_error_payload p
            then Raise (EntrezSDKError (label ++ str " " ++ _format_payload_error p))
            else Return (normalize p)
        | other => Return other
        end
    end.
Proof.
  intros Hs Hparse. unfold handle_response.
  destruct (Z.leb_spec 400 (status response)); [lia|].
  rewrite Hparse.
  destruct (if truthy result then has_error result else Return false) as [[|]|];
    try reflexivity.
  destruct (match result with
            | JDict d => default JNull (d !! str "result")
            | _ => JNull
            end); reflexivity.
Qed.

(** X4. When the POST of a request of [invoke] fails in the network,
    [invoke] raises the SDK's error with the label of the operation, the
    words [Network error:] and the text of the network failure. *)
Theorem network_error_fails tool_name params w e msg :
  e ∈ exchanges_since w (invoke tool_name params w).2 ->
  got e = ClientError msg ->
  exists label,
    invoke_label tool_name label
    /\ (invoke tool_name params w).1 =
         Raise (EntrezSDKError (label ++ str " Network error: " ++ msg)).
Proof.
  intros He Hgot. unfold invoke in *.
  destruct (invoke_failing_exchange tool_name params w e He) as (label & Hl & Hr).
  - intros label. rewrite Hgot. eexists. reflexivity.
  - exists label. split; [exact Hl|]. rewrite Hr, Hgot. reflexivity.
Qed.

(** X5. When a request of [invoke] is answered with a status below 400 and
    an envelope whose [error] field is a dict, [invoke] raises the SDK's
    error with the label, the words [MCP Error:] and the [message] of the
    error, or the error printed as JSON when it has no [message]. This is
    so whatever the envelope holds as [result]. *)
Theorem rpc_error_fails tool_name params w e response d err :
  e ∈ exchanges_since w (invoke tool_name params w).2 ->
  got e = Replied response ->
  (status response < 400)%Z ->
  _parse_response_text (text response) = Return (JDict d) ->
  d !! str "error" = Some (JDict err) ->
  exists label,
    invoke_label tool_name label
    /\ (invoke tool_name params w).1 =
         Raise (EntrezSDKError
                  (label ++ str " MCP Error: "
                   ++ match err !! str "message" with
                      | Some (JStr message) => message
                      | Some other => py_repr other
                      | None => json_dumps (JDict err)
                      end)).
Proof.
  intros He Hgot Hs Hparse Herr. unfold invoke in *.
  assert (Hfail : forall label,
    settle label (got e) =
      Raise (EntrezSDKError
               (label ++ str " MCP Error: "
                ++ match err !! str "message" with
                   | Some (JStr message) => message
                   | Some other => py_repr other
                   | None => json_dumps (JDict err)
                   end))).
  { intros label. rewrite Hgot. simpl settle.
    rewrite (handle_response_decoded label response _ Hs Hparse).
    rewrite (truthy_dict_lookup _ _ _ Herr). simpl has_error. rewrite Herr.
    rewrite bool_decide_eq_true_2 by eauto. simpl get_error. rewrite Herr.
    destruct (err !! str "message") as [[| | | | | |]|]; reflexivity. }
  destruct (invoke_failing_exchange tool_name params w e He) as (label & Hl & Hr).
  - intros label. rewrite Hfail. eexists. reflexivity.
  - exists label. split; [exact Hl|]. rewrite Hr. apply Hfail.
Qed.

(** X6. When the [error] field of the envelope is there but is not a
    dict, what leaves [invoke] is the built-in [AttributeError] of the
    call of [get] on it, not the SDK's error. *)
Theorem rpc_error_not_a_dict tool_name params w e response d err :
  e ∈ exchanges_since w (invoke tool_name params w).2 ->
  got e = Replied response ->
  (status response < 400)%Z ->
  _parse_response_text (text response) = Return (JDict d) ->
  d !! str "error" = Some err ->
  (forall fields, err <> JDict fields) ->
  (invoke tool_name params w).1 = Raise AttributeError.
Proof.
  intros He Hgot Hs Hparse Herr Hnot. unfold invoke in *.
  assert (Hfail : forall label, settle label (got e) = Raise AttributeError).
  { intros label. rewrite Hgot. simpl settle.
    rewrite (handle_response_decoded label response _ Hs Hparse).
    rewrite (truthy_dict_lookup _ _ _ Herr). simpl has_error. rewrite Herr.
    rewrite bool_decide_eq_true_2 by eauto. simpl get_error. rewrite Herr.
    destruct err; try reflexivity. destruct (Hnot d0 eq_refl). }
  destruct (invoke_failing_exchange tool_name params w e He) as (label & Hl & Hr).
  - intros label. rewrite Hfail. eexists. reflexivity.
  - rewrite Hr. apply Hfail.
Qed.

(** X7. When the last response of [invoke] has a status below 400 and a
    body that decodes to something that is not a dict, [invoke] returns
    [None] for a value that counts as false, for a list without the
    string [error] in it and for a string that does not contain [error];
    for every other value (a number that is not zero, [true], a list or a
    string with [error] in it) the built-in [TypeError] leaves it. *)
Theorem non_dict_body tool_name params w earlier e response v :
  wire (invoke tool_name params w).2 = earlier ++ [e] ->
  got e = Replied response ->
  (status response < 400)%Z ->
  _parse_response_text (text response) = Return v ->
  (forall d, v <> JDict d) ->
  (invoke tool_name params w).1 =
    if truthy v then
      match v with
      | JList l =>
          if existsb (fun x => match x with
                               | JStr s => Str.eqb s (str "error")
                               | _ => false
                               end) l
          then Raise TypeError else Return JNull
      | JStr s => if contains s (str "error") then Raise TypeError else Return JNull
      | _ => Raise TypeError
      end
    else Return JNull.
Proof.
  intros Hlast Hgot Hs Hparse Hnot. unfold invoke in *.
  destruct (invoke_last tool_name params w) as (earlier' & e' & label & Hlast' & _ & Hr).
  rewrite Hlast in Hlast'. apply app_inj_tail in Hlast' as [_ <-].
  rewrite Hr, Hgot. simpl settle.
  rewrite (handle_response_decoded label response _ Hs Hparse).
  destruct v as [|b|z|f|s|l|d]; try (destruct (Hnot d eq_refl)).
  - reflexivity.
  - destruct b; reflexivity.
  - simpl truthy. destruct (negb (z =? 0)%Z); reflexivity.
  - simpl truthy. destruct (negb (PrimFloat.eqb f 0)); reflexivity.
  - destruct s as [|c s]; [reflexivity|].
    cbn [truthy has_error]. destruct (contains (c :: s) (str "error")); reflexivity.
  - destruct l as [|x l]; [reflexivity|].
    cbn [truthy has_error].
    destruct (existsb _ (x :: l)); reflexivity.
Qed.

(** X8. When the last response of [invoke] has a status below 400 and
    either an empty body or an envelope with neither an [error] nor a
    [result] (or with a [result] that is [null]), [invoke] returns [None]:
    a missing result is not an error. *)
Theorem absent_result_is_none tool_name params w earlier e response :
  wire (invoke tool_name params w).2 = earlier ++ [e] ->
  got e = Replied response ->
  (status response < 400)%Z ->
  strip (text response) = []
  \/ (exists d,
        _parse_response_text (text response) = Return (JDict d)
        /\ d !! str "error" = None
        /\ (d !! str "result" = None \/ d !! str "result" = Some JNull)) ->
  (invoke tool_name params w).1 = Return JNull.
Proof.
  intros Hlast Hgot Hs Hbody. unfold invoke in *.
  assert (Hd : exists d,
             _parse_response_text (text response) = Return (JDict d)
             /\ d !! str "error" = None
             /\ default JNull (d !! str "result") = JNull).
  { destruct Hbody as [Hempty|(d & Hparse & Herr & [Hres|Hres])].
    - exists ∅. unfold _parse_response_text. rewrite Hempty. auto.
    - exists d. rewrite Hres. auto.
    - exists d. rewrite Hres. auto. }
  destruct Hd as (d & Hparse & Herr & Hres).
  destruct (invoke_last tool_name params w) as (earlier' & e' & label & Hlast' & _ & Hr).
  rewrite Hlast in Hlast'. apply app_inj_tail in Hlast' as [_ <-].
  rewrite Hr, Hgot. simpl settle.
  rewrite (handle_response_decoded label response _ Hs Hparse).
  simpl has_error. rewrite Herr.
  rewrite bool_decide_eq_false_2 by (intros [? ?]; discriminate).
  rewrite Hres. destruct (truthy (JDict d)); reflexivity.
Qed.

(** X9. When a request of [invoke] is answered with a status below 400 and
    a body on which the decoder raises, [invoke] raises the decoder's
    exception as it is. Unless [json.loads] raised it itself, on the
    trimmed body or on the data of a segment, it is the SDK's error with
    the message [No JSON payload found in SSE response], without the
    label that the other errors of the pipeline carry. *)
Theorem undecodable_body_unlabelled tool_name params w e response x :
  e ∈ exchanges_since w (invoke tool_name params w).2 ->
  got e = Replied response ->
  (status response < 400)%Z ->
  _parse_response_text (text response) = Raise x ->
  (invoke tool_name params w).1 = Raise x
  /\ (x = EntrezSDKError (str "No JSON payload found in SSE response")
      \/ json_loads (strip (text response)) = Some (Raise x)
      \/ exists s, s ∈ sse_segments (strip (text response))
                   /\ segment_payload s = Some (Raise x)).
Proof.
  intros He Hgot Hs Hparse. unfold invoke in *.
  split; [|exact (parse_raise_inv _ _ Hparse)].
  assert (Hfail : forall label, settle label (got e) = Raise x).
  { intros label. rewrite Hgot. simpl settle. unfold handle_response.
    destruct (Z.leb_spec 400 (status response)); [lia|].
    rewrite Hparse. reflexivity. }
  destruct (invoke_failing_exchange tool_name params w e He) as (label & Hl & Hr).
  - intros label. rewrite Hfail. eexists. reflexivity.
  - rewrite Hr. apply Hfail.
Qed.

End Endings.

Lemma network_error_fails_witness :
  exists label,
    invoke_label (str "entrez_query") label
    /\ (@invoke RefJson.python refusing (str "entrez_query") ∅ in_session).1 =
         Raise (EntrezSDKError
                  (label ++ str " Network error: " ++ str "Cannot connect to host")).
Proof.
  apply (@network_error_fails RefJson.python refusing (str "entrez_query") ∅
           in_session
           (exchange_at
              (@invoke RefJson.python refusing (str "entrez_query") ∅ in_session).2 0)).
  - vm_compute. left.
  - reflexivity.
Defined.

Lemma rpc_error_fails_witness :
  exists label,
    invoke_label (str "entrez_query") label
    /\ (@invoke RefJson.python (replying rpc_error_reply)
          (str "entrez_query") ∅ in_session).1 =
         Raise (EntrezSDKError
                  (label ++ str " MCP Error: " ++ str "Invalid database")).
Proof.
  assert (He : exchange_at (session_call rpc_error_reply).2 0
               ∈ exchanges_since in_session
                   (@invoke RefJson.python (replying rpc_error_reply)
                      (str "entrez_query") ∅ in_session).2)
    by (vm_compute; left).
  assert (Hs : (status rpc_error_reply < 400)%Z) by (simpl; lia).
  assert (Hparse : @_parse_response_text RefJson.python (text rpc_error_reply)
                   = Return (JDict (envelope_of rpc_error_reply)))
    by (vm_compute; reflexivity).
  assert (Herr : envelope_of rpc_error_reply !! str "error"
                 = Some (JDict (<[str "code" := JInt (-32602)]>
                                (<[str "message" := JStr (str "Invalid database")]> ∅))))
    by (vm_compute; reflexivity).
  exact (@rpc_error_fails RefJson.python (replying rpc_error_reply)
           (str "entrez_query") ∅ in_session _ rpc_error_reply _ _
           He eq_refl Hs Hparse Herr).
Defined.

Lemma rpc_error_not_a_dict_witness :
  (@invoke RefJson.python (replying string_error_reply)
     (str "entrez_query") ∅ in_session).1 = Raise AttributeError.
Proof.
  apply (@rpc_error_not_a_dict RefJson.python (replying string_error_reply)
           (str "entrez_query") ∅ in_session
           (exchange_at (session_call string_error_reply).2 0) string_error_reply
           (envelope_of string_error_reply) (JStr (str "boom"))).
  - vm_compute. left.
  - reflexivity.
  - simpl. lia.
  - vm_compute. reflexivity.
  - vm_compute. reflexivity.
  - discriminate.
Defined.

Lemma non_dict_body_witness :
  (@invoke RefJson.python (replying number_reply)
     (str "entrez_query") ∅ in_session).1 = Raise TypeError.
Proof.
  apply (@non_dict_body RefJson.python (replying number_reply)
           (str "entrez_query") ∅ in_session []
           (exchange_at (session_call number_reply).2 0) number_reply (JInt 42)).
  - vm_compute. reflexivity.
  - reflexivity.
  - simpl. lia.
  - vm_compute. reflexivity.
  - discriminate.
Defined.

Lemma absent_result_is_none_witness :
  (@invoke RefJson.python (replying empty_reply)
     (str "entrez_query") ∅ in_session).1 = Return JNull.
Proof.
  apply (@absent_result_is_none RefJson.python (replying empty_reply)
           (str "entrez_query") ∅ in_session []
           (exchange_at (session_call empty_reply).2 0) empty_reply).
  - vm_compute. reflexivity.
  - reflexivity.
  - simpl. lia.
  - left. vm_compute. reflexivity.
Defined.

Lemma undecodable_body_unlabelled_witness :
  (@invoke RefJson.python (replying garbage_reply)
     (str "entrez_query") ∅ in_session).1 =
    Raise (EntrezSDKError (str "No JSON payload found in SSE response")).
Proof.
  refine (proj1 (@undecodable_body_unlabelled RefJson.python (replying garbage_reply)
                   (str "entrez_query") ∅ in_session
                   (exchange_at (session_call garbage_reply).2 0) garbage_reply
                   (EntrezSDKError NO_SSE_PAYLOAD) _ _ _ _)).
  - vm_compute. left.
  - reflexivity.
  - simpl. lia.
  - vm_compute. reflexivity.
Defined.

(** ** The requests of a run *)

Section Requests.
Context `{Python} `{Network}.

Lemma request_method_envelope self before method params :
  request_method (request_of self before method params) = Some (JStr method).
Proof.
  unfold request_method, request_of, rpc_envelope. simpl.
  rewrite lookup_insert_ne by key_ne. rewrite lookup_insert_ne by key_ne.
  apply lookup_insert_eq.
Qed.

Lemma request_params_envelope self before method params :
  request_params (request_of self before method params) = Some params.
Proof.
  unfold request_params, request_of, rpc_envelope. simpl.
  do 3 (rewrite lookup_insert_ne by key_ne). apply lookup_insert_eq.
Qed.

(** One request: what goes out, and what it leaves. *)
Lemma _request_payload_sent context method params w :
  exists out,
    (_request_payload context method params w).2 =
      {| sdk := match out with
                | Replied response | Unread response _ =>
                    _extract_session_id (_get_session (sdk w)) response
                | ClientError _ => _get_session (sdk w)
                end;
         wire := wire w ++ [{| sent := request_of (sdk w) (wire w) method params;
                               got := out |}] |}
    /\ (_request_payload context method params w).1
       = settle (_format_context context) out.
Proof.
  rewrite _request_payload_eq. eexists. split; reflexivity.
Qed.

Lemma statics_extract self response :
  statics (_extract_session_id (_get_session self) response) = statics self.
Proof.
  unfold _extract_session_id. destruct (headers_get _ _) as [s|]; [|reflexivity].
  destruct (str_truthy s); reflexivity.
Qed.

Lemma well_sent_statics a b before e :
  statics a = statics b -> well_sent a before e -> well_sent b before e.
Proof.
  unfold statics, well_sent. intros [= Hb Hp Hi Hc] [Hurl (m & ps & Hj & Hm)].
  split; [rewrite <- Hb; exact Hurl|].
  exists m, ps. split; [exact Hj|].
  destruct Hm as [[-> ->]|Hm]; [left | right; exact Hm].
  split; [reflexivity|]. unfold initialize_params. rewrite Hp, Hi, Hc. reflexivity.
Qed.

Lemma sends_refl w : sends w [] w.
Proof.
  split; [symmetry; apply app_nil_r|]. split; [reflexivity|].
  intros i e Hi. rewrite lookup_nil in Hi. discriminate.
Qed.

Lemma sends_trans w xs w' ys w'' :
  sends w xs w' -> sends w' ys w'' -> sends w (xs ++ ys) w''.
Proof.
  intros (Hw & Hs & Hx) (Hw' & Hs' & Hy). split; [|split].
  - rewrite Hw', Hw. symmetry. apply app_assoc.
  - congruence.
  - intros i e Hi. destruct (decide (i < length xs)%nat) as [Hlt|Hge].
    + rewrite lookup_app_l in Hi by assumption.
      rewrite take_app_le by lia. apply Hx. exact Hi.
    + rewrite lookup_app_r in Hi by lia.
      rewrite take_app_ge by lia. rewrite app_assoc, <- Hw.
      apply (well_sent_statics (sdk w')); [exact Hs|]. apply Hy. exact Hi.
Qed.

Lemma sends_request context method params w :
  (method = str "initialize" /\ params = initialize_params (sdk w))
  \/ (method = str "tools/call" /\ exists tool_name ps, params = call_params tool_name ps) ->
  exists e, sends w [e] (_request_payload context method params w).2.
Proof.
  intros Hm. destruct (_request_payload_sent context method params w) as (out & -> & _).
  eexists. split; [reflexivity|]. split.
  - simpl. destruct out; [apply statics_extract | reflexivity | apply statics_extract].
  - intros i e Hi. destruct i as [|i]; [|rewrite lookup_cons, lookup_nil in Hi; discriminate].
    injection Hi as <-. simpl. rewrite app_nil_r. split; [reflexivity|].
    exists method, params. split; [reflexivity | exact Hm].
Qed.

Lemma sends_call tool_name params w :
  exists xs, sends w xs (_call tool_name params w).2.
Proof.
  assert (Hcall : forall w1, exists e,
             sends w1 [e] (_request_payload tool_name (str "tools/call")
                             (call_params tool_name params) w1).2).
  { intros w1. apply sends_request. right. eauto. }
  destruct (session_truthy (session_id (sdk w))) eqn:Hs.
  - rewrite (_call_with_session _ _ _ Hs). destruct (Hcall w) as [e He]. eauto.
  - rewrite (_call_without_session _ _ _ Hs).
    destruct (sends_request (str "initialize") (str "initialize")
                (initialize_params (sdk w)) w) as [e He]; [left; auto|].
    destruct (_request_payload (str "initialize") _ _ w) as [[v|x] w1]; simpl in *.
    + destruct (Hcall w1) as [e' He']. exists ([e] ++ [e']).
      eapply sends_trans; eassumption.
    + eauto.
Qed.

Lemma sends_run calls w :
  exists xs, sends w xs (run_calls calls w).
Proof.
  revert w. induction calls as [|[tool_name params] calls IH]; intros w; simpl.
  - exists []. apply sends_refl.
  - destruct (sends_call tool_name params w) as [xs Hxs].
    destruct (IH (_call tool_name params w).2) as [ys Hys].
    exists (xs ++ ys). eapply sends_trans; eassumption.
Qed.

Lemma lstrip_char_head ch s : startswith (lstrip_char ch s) [ch] = false.
Proof.
  induction s as [|c s IH]; [reflexivity|]. simpl lstrip_char.
  destruct (N.eqb_spec c ch) as [->|Hne]; [exact IH|].
  simpl. apply andb_false_iff. left. apply N.eqb_neq. congruence.
Qed.

(** X10. Every request that a client sends over its life, handshake or
    tool call, goes to the one endpoint made of the URL it was constructed
    with, without its trailing slashes, and [/mcp]; its body is a
    JSON-RPC 2.0 envelope whose id is the clock reading taken when the
    request was built, and whose method is [initialize], with the
    protocol version, the capabilities and the client info as
    parameters, or [tools/call], with a tool name and its arguments. *)
Theorem every_request_well_formed base calls pre e post :
  wire (run_calls calls (fresh base)) = pre ++ e :: post ->
  url (sent e) = rstrip_char 47 base ++ str "/mcp"
  /\ endswith (rstrip_char 47 base) (str "/") = false
  /\ exists method params,
       req_json (sent e) =
         JDict (<[str "jsonrpc" := JStr (str "2.0")]>
                (<[str "id" := JInt (time_ms pre)]>
                 (<[str "method" := JStr method]>
                  (<[str "params" := params]> ∅))))
       /\ ((method = str "initialize"
            /\ params =
                 JDict (<[str "protocolVersion" := JStr (str "2025-11-25")]>
                        (<[str "capabilities" := JDict (<[str "tools" := JDict ∅]> ∅)]>
                         (<[str "clientInfo" :=
                              JDict (<[str "name" := JStr (str "entrez-mcp-python")]>
                                     (<[str "version" := JStr (str "1.0.0")]> ∅))]> ∅))))
           \/ (method = str "tools/call"
               /\ exists tool_name arguments,
                    params =
                      JDict (<[str "name" := JStr tool_name]>
                             (<[str "arguments" := JDict arguments]> ∅)))).
Proof.
  intros Hw. destruct (sends_run calls (fresh base)) as (xs & Hx & _ & Hsent).
  simpl in Hx. rewrite Hx in Hw. subst xs.
  specialize (Hsent (length pre) e).
  rewrite list_lookup_middle in Hsent by reflexivity.
  rewrite take_app_length in Hsent.
  destruct (Hsent eq_refl) as (Hurl & method & params & Hjson & Hm).
  split; [exact Hurl|]. split.
  - unfold endswith, rstrip_char. rewrite rev_involutive. apply lstrip_char_head.
  - exists method, params. split; [exact Hjson|].
    destruct Hm as [[-> ->]|[-> (tool_name & ps & ->)]]; [left | right].
    + split; reflexivity.
    + split; [reflexivity|]. exists tool_name, (cleaned_params ps). reflexivity.
Qed.

End Requests.

Lemma every_request_well_formed_witness :
  url (sent (exchange_at first_run 1)) = rstrip_char 47 localhost ++ str "/mcp".
Proof.
  refine (proj1 (@every_request_well_formed RefJson.python reissuing localhost
                   [status_call] [exchange_at first_run 0]
                   (exchange_at first_run 1) [] _)).
  vm_compute. reflexivity.
Defined.

(** ** The handshake *)

Section Handshake.
Context `{Python} `{Network}.

Lemma exchanges_since_app w xs w' :
  wire w' = wire w ++ xs -> exchanges_since w w' = xs.
Proof. intros Hw. unfold exchanges_since. rewrite Hw. apply drop_app_length. Qed.

Lemma session_after_handshake w out :
  session_truthy (session_id (sdk w)) = false ->
  _build_headers
    match out with
    | Replied response | Unread response _ =>
        _extract_session_id (_get_session (sdk w)) response
    | ClientError _ => _get_session (sdk w)
    end !! str "Mcp-Session-Id" = supplied out.
Proof.
  intros Hs. rewrite _build_headers_session.
  destruct out as [response|msg|response failure].
  - rewrite session_id_extract.
    destruct (supplied (Replied response)) as [s|] eqn:Hsup.
    + simpl. rewrite (supplied_truthy _ _ Hsup). reflexivity.
    + simpl. rewrite Hs. reflexivity.
  - simpl. rewrite Hs. reflexivity.
  - rewrite session_id_extract.
    change (supplied (Unread response failure)) with (supplied (Replied response)).
    destruct (supplied (Replied response)) as [s|] eqn:Hsup.
    + simpl. rewrite (supplied_truthy _ _ Hsup). reflexivity.
    + simpl. rewrite Hs. reflexivity.
Qed.

(** X11. A client without a session id opens every invocation with the
    handshake: an [initialize] request with the protocol version, the
    capabilities and the client info. If the handshake fails, [invoke]
    raises the handshake's error and the tool request is never sent. If
    it returns, the tool request follows as the second and last request,
    carrying the session id that the handshake's response supplied, and no
    session header when it supplied none; its outcome is the result. *)
Theorem handshake_before_first_call tool_name params w :
  session_truthy (session_id (sdk w)) = false ->
  exists e1 rest,
    exchanges_since w (invoke tool_name params w).2 = e1 :: rest
    /\ sent e1 = request_of (sdk w) (wire w) (str "initialize")
                   (initialize_params (sdk w))
    /\ (forall x,
          settle (str "[initialize]") (got e1) = Raise x ->
          rest = [] /\ (invoke tool_name params w).1 = Raise x)
    /\ (forall v,
          settle (str "[initialize]") (got e1) = Return v ->
          exists e2,
            rest = [e2]
            /\ request_method (sent e2) = Some (JStr (str "tools/call"))
            /\ request_params (sent e2) = Some (call_params tool_name params)
            /\ req_headers (sent e2) !! str "Mcp-Session-Id" = supplied (got e1)
            /\ (invoke tool_name params w).1
               = settle (_format_context tool_name) (got e2)).
Proof.
  intros Hs. unfold invoke. rewrite (_call_without_session _ _ _ Hs).
  destruct (_request_payload_sent (str "initialize") (str "initialize")
              (initialize_params (sdk w)) w) as (out & Hw1 & Hr1).
  rewrite format_context_initialize in Hr1.
  destruct (_request_payload (str "initialize") _ _ w) as [r1 w1]. simpl in Hw1, Hr1.
  subst w1 r1.
  exists {| sent := request_of (sdk w) (wire w) (str "initialize")
                      (initialize_params (sdk w));
            got := out |}.
  destruct (settle (str "[initialize]") out) as [v|x] eqn:Hsettle.
  - set (w1 := {| sdk := _; wire := _ |}).
    destruct (_request_payload_sent tool_name (str "tools/call")
                (call_params tool_name params) w1) as (out2 & Hw2 & Hr2).
    eexists [_]. split; [|split; [reflexivity|split]].
    + apply exchanges_since_app. rewrite Hw2. simpl.
      rewrite <- app_assoc. reflexivity.
    + intros x Hx. simpl in Hx. congruence.
    + intros v' _. eexists. split; [reflexivity|].
      split; [apply request_method_envelope|].
      split; [apply request_params_envelope|].
      split; [|exact Hr2].
      simpl. apply session_after_handshake. exact Hs.
  - exists []. split; [|split; [reflexivity|split]].
    + apply exchanges_since_app. reflexivity.
    + intros x' Hx'. simpl in Hx'. split; [reflexivity|]. simpl. congruence.
    + intros v Hv. simpl in Hv. congruence.
Qed.

Lemma session_after_unsupplied sid xs :
  (forall e, e ∈ xs -> supplied (got e) = None) -> session_after sid xs = sid.
Proof.
  induction xs as [|e xs IH] using rev_ind; intros Hnone; [reflexivity|].
  rewrite session_after_snoc, Hnone by (apply elem_of_app; right; left).
  apply IH. intros e' He'. apply Hnone, elem_of_app. left. exact He'.
Qed.

Lemma first_request_initialize tool_name params w :
  session_truthy (session_id (sdk w)) = false ->
  exists e1 rest,
    exchanges_since w (_call tool_name params w).2 = e1 :: rest
    /\ request_method (sent e1) = Some (JStr (str "initialize")).
Proof.
  intros Hs. rewrite (_call_without_session _ _ _ Hs).
  destruct (_request_payload_sent (str "initialize") (str "initialize")
              (initialize_params (sdk w)) w) as (out & Hw1 & _).
  destruct (_request_payload (str "initialize") _ _ w) as [[v|x] w1];
    simpl in Hw1; subst w1.
  - set (w1 := {| sdk := _; wire := _ |}).
    destruct (_request_payload_sent tool_name (str "tools/call")
                (call_params tool_name params) w1) as (out2 & Hw2 & _).
    eexists _, [_]. split.
    + apply exchanges_since_app. rewrite Hw2. simpl.
      rewrite <- app_assoc. reflexivity.
    + apply request_method_envelope.
  - eexists _, []. split.
    + apply exchanges_since_app. reflexivity.
    + apply request_method_envelope.
Qed.

(** X12. The handshake is repeated for as long as the server issues no
    session id: when a client without one invokes a tool and no response
    of that invocation carries a session header, it still holds none
    afterwards, and its next invocation opens with [initialize] again. *)
Theorem handshake_repeats_without_session_id tool_name params w :
  session_truthy (session_id (sdk w)) = false ->
  (forall e, e ∈ exchanges_since w (invoke tool_name params w).2 ->
             supplied (got e) = None) ->
  let w' := (invoke tool_name params w).2 in
  session_id (sdk w') = session_id (sdk w)
  /\ forall next_tool next_params,
       exists e1 rest,
         exchanges_since w' (invoke next_tool next_params w').2 = e1 :: rest
         /\ request_method (sent e1) = Some (JStr (str "initialize")).
Proof.
  intros Hs Hnone w'. unfold invoke in *.
  assert (Hsame : session_id (sdk w') = session_id (sdk w)).
  { unfold w'. rewrite session_after_invoke. apply session_after_unsupplied, Hnone. }
  split; [exact Hsame|]. intros next_tool next_params.
  apply first_request_initialize. rewrite Hsame. exact Hs.
Qed.

(** X13. Once a client holds a session id it never shakes hands again:
    however its invocations end, a run of n invocations sends exactly n
    requests, each of them a [tools/call]. *)
Theorem one_request_per_call_in_session calls w :
  session_truthy (session_id (sdk w)) = true ->
  length (exchanges_since w (run_calls calls w)) = length calls
  /\ forall e, e ∈ exchanges_since w (run_calls calls w) ->
       request_method (sent e) = Some (JStr (str "tools/call")).
Proof.
  revert w. induction calls as [|[tool_name params] calls IH]; intros w Hs.
  - simpl. unfold exchanges_since. rewrite drop_all. split; [reflexivity|].
    intros e He. inversion He.
  - simpl run_calls. rewrite (_call_with_session _ _ _ Hs).
    destruct (_request_payload_sent tool_name (str "tools/call")
                (call_params tool_name params) w) as (out & Hw1 & _).
    set (w1 := (_request_payload tool_name (str "tools/call")
                  (call_params tool_name params) w).2) in *.
    assert (Hs1 : session_truthy (session_id (sdk w1)) = true).
    { rewrite Hw1. simpl.
      destruct out as [response|msg|response failure]; [|exact Hs|];
        (rewrite session_id_extract;
         destruct (supplied (Replied response)) as [s|] eqn:Hsup; [|exact Hs];
         simpl; eapply supplied_truthy; exact Hsup). }
    destruct (IH w1 Hs1) as [Hlen Hall].
    destruct (follows_run calls w1) as (xs & Hxs & _).
    rewrite (exchanges_since_app _ _ _ Hxs) in Hlen, Hall.
    assert (Hsince : exchanges_since w (run_calls calls w1)
                     = {| sent := request_of (sdk w) (wire w) (str "tools/call")
                                    (call_params tool_name params);
                          got := out |} :: xs).
    { apply exchanges_since_app. rewrite Hxs, Hw1. simpl.
      rewrite <- app_assoc. reflexivity. }
    rewrite Hsince. split; [simpl; rewrite Hlen; reflexivity|].
    intros e [->|He]%elem_of_cons; [apply request_method_envelope | apply Hall, He].
Qed.

End Handshake.

Lemma handshake_before_first_call_witness :
  exists e1 rest,
    exchanges_since (fresh localhost)
      (@invoke RefJson.python reissuing (str "entrez_query") ∅ (fresh localhost)).2
    = e1 :: rest
    /\ sent e1 = @request_of reissuing (sdk (fresh localhost)) []
                   (str "initialize") (initialize_params (sdk (fresh localhost))).
Proof.
  destruct (@handshake_before_first_call RefJson.python reissuing
              (str "entrez_query") ∅ (fresh localhost) eq_refl)
    as (e1 & rest & Hx & Hsent & _).
  exists e1, rest. split; [exact Hx | exact Hsent].
Defined.

Lemma handshake_repeats_without_session_id_witness :
  session_id
    (sdk (@invoke RefJson.python sessionless (str "entrez_query") ∅
            (fresh localhost)).2)
  = session_id (sdk (fresh localhost)).
Proof.
  refine (proj1 (@handshake_repeats_without_session_id RefJson.python sessionless
                   (str "entrez_query") ∅ (fresh localhost) eq_refl _)).
  intros e He. vm_compute in He.
  apply elem_of_cons in He as [->|He]; [vm_compute; reflexivity|].
  apply elem_of_cons in He as [->|He]; [vm_compute; reflexivity|].
  inversion He.
Defined.

Lemma one_request_per_call_in_session_witness :
  length (exchanges_since in_session
            (@run_calls RefJson.python reissuing [status_call; status_call]
               in_session))
  = 2%nat.
Proof.
  exact (proj1 (@one_request_per_call_in_session RefJson.python reissuing
                  [status_call; status_call] in_session eq_refl)).
Defined.

(** ** The tool methods *)

Ltac lookup_key :=
  repeat (rewrite lookup_insert_ne by key_ne);
  first [ rewrite lookup_insert_eq | rewrite lookup_empty ].

Section Tools.
Context `{Python} `{Network}.

Lemma request_arguments_call self before tool_name ps :
  request_arguments (request_of self before (str "tools/call")
                       (call_params tool_name ps))
  = cleaned_params ps.
Proof.
  unfold request_arguments. rewrite request_params_envelope.
  unfold call_params. lookup_key. reflexivity.
Qed.

Lemma request_tool_call self before tool_name ps :
  request_params (request_of self before (str "tools/call")
                    (call_params tool_name ps))
  = Some (JDict (<[str "name" := JStr tool_name]>
                 (<[str "arguments" := JDict (cleaned_params ps)]> ∅))).
Proof. apply request_params_envelope. Qed.

(** A tool call of a client in session: one request, and its outcome. *)
Lemma call_in_session tool_name ps w :
  session_truthy (session_id (sdk w)) = true ->
  exists out,
    let e := {| sent := request_of (sdk w) (wire w) (str "tools/call")
                          (call_params tool_name ps);
                got := out |} in
    exchanges_since w (_call tool_name ps w).2 = [e]
    /\ (_call tool_name ps w).1 = settle (_format_context tool_name) out.
Proof.
  intros Hs. rewrite (_call_with_session _ _ _ Hs).
  destruct (_request_payload_sent tool_name (str "tools/call")
              (call_params tool_name ps) w) as (out & Hw & Hr).
  exists out. split; [|exact Hr].
  apply exchanges_since_app. rewrite Hw. reflexivity.
Qed.

(** X14. [search] by a client in session sends one [tools/call] request
    for the tool [entrez_query]. Its arguments hold the operation
    [search], the database, the term and [retmax]; each of [retstart],
    [sort], [field] and [intended_use] is there with its value when it was
    given and is left out when it was not; nothing else is sent. *)
Theorem search_sends_what_was_given
    database term retmax retstart sort field intended_use w :
  session_truthy (session_id (sdk w)) = true ->
  exists e,
    exchanges_since w
      (search database term retmax retstart sort field intended_use w).2 = [e]
    /\ request_method (sent e) = Some (JStr (str "tools/call"))
    /\ request_params (sent e) =
         Some (JDict (<[str "name" := JStr (str "entrez_query")]>
                      (<[str "arguments" := JDict (request_arguments (sent e))]> ∅)))
    /\ request_arguments (sent e) =
         <[str "operation" := JStr (str "search")]>
         (<[str "database" := JStr database]>
          (<[str "term" := JStr term]>
           (<[str "retmax" := JInt retmax]> ∅)))
         ∪ (match retstart with
            | Some z => {[str "retstart" := JInt z]}
            | None => ∅
            end)
         ∪ (match sort with
            | Some s => {[str "sort" := JStr s]}
            | None => ∅
            end)
         ∪ (match field with
            | Some s => {[str "field" := JStr s]}
            | None => ∅
            end)
         ∪ (match intended_use with
            | Some s => {[str "intended_use" := JStr s]}
            | None => ∅
            end).
Proof.
  intros Hs. unfold search.
  match goal with
  | |- context [_call _ ?ps w] =>
      destruct (call_in_session (str "entrez_query") ps w Hs) as (out & Hx & _)
  end.
  eexists. split; [exact Hx|]. simpl sent.
  split; [apply request_method_envelope|].
  rewrite request_arguments_call. split; [apply request_tool_call|].
  apply map_eq. intros k. rewrite cleaned_params_lookup.
  rewrite !lookup_union.
  destruct (decide (k = str "operation")) as [->|?];
    [destruct retstart, sort, field, intended_use; reflexivity|].
  destruct (decide (k = str "database")) as [->|?];
    [destruct retstart, sort, field, intended_use; reflexivity|].
  destruct (decide (k = str "term")) as [->|?];
    [destruct retstart, sort, field, intended_use; reflexivity|].
  destruct (decide (k = str "retmax")) as [->|?];
    [destruct retstart, sort, field, intended_use; reflexivity|].
  destruct (decide (k = str "retstart")) as [->|?];
    [destruct retstart, sort, field, intended_use; reflexivity|].
  destruct (decide (k = str "sort")) as [->|?];
    [destruct retstart, sort, field, intended_use; reflexivity|].
  destruct (decide (k = str "field")) as [->|?];
    [destruct retstart, sort, field, intended_use; reflexivity|].
  destruct (decide (k = str "intended_use")) as [->|?];
    [destruct retstart, sort, field, intended_use; reflexivity|].
  rewrite !lookup_insert_ne, lookup_empty by congruence.
  destruct retstart, sort, field, intended_use;
    rewrite ?lookup_singleton_ne, ?lookup_empty by congruence; reflexivity.
Qed.

(** X15. [summary] by a client in session sends one [tools/call] request
    for [entrez_query] whose [ids] argument is the ids joined by commas
    when they came as a list (the empty string for an empty list) and the
    string itself otherwise, so that a list and its comma-separated
    string make the same request; [compact_mode] is always sent, and
    [retmax], [detail_level] and [max_tokens] only when given. *)
Theorem summary_joins_ids database ids retmax compact_mode detail_level max_tokens w :
  session_truthy (session_id (sdk w)) = true ->
  (exists e,
      exchanges_since w
        (summary database ids retmax compact_mode detail_level max_tokens w).2 = [e]
      /\ request_method (sent e) = Some (JStr (str "tools/call"))
      /\ request_params (sent e) =
           Some (JDict (<[str "name" := JStr (str "entrez_query")]>
                        (<[str "arguments" := JDict (request_arguments (sent e))]> ∅)))
      /\ request_arguments (sent e) =
           <[str "operation" := JStr (str "summary")]>
           (<[str "database" := JStr database]>
            (<[str "ids" := JStr match ids with
                                 | IdList l => join (str ",") l
                                 | OneId id => id
                                 end]>
             (<[str "compact_mode" := JBool compact_mode]> ∅)))
           ∪ (match retmax with
              | Some z => {[str "retmax" := JInt z]}
              | None => ∅
              end)
           ∪ (match detail_level with
              | Some s => {[str "detail_level" := JStr s]}
              | None => ∅
              end)
           ∪ (match max_tokens with
              | Some z => {[str "max_tokens" := JInt z]}
              | None => ∅
              end))
  /\ (forall l,
        summary database (IdList l) retmax compact_mode detail_level max_tokens w
        = summary database (OneId (join (str ",") l)) retmax compact_mode
            detail_level max_tokens w).
Proof.
  intros Hs. split; [|reflexivity]. unfold summary.
  match goal with
  | |- context [_call _ ?ps w] =>
      destruct (call_in_session (str "entrez_query") ps w Hs) as (out & Hx & _)
  end.
  eexists. split; [exact Hx|]. simpl sent.
  split; [apply request_method_envelope|].
  rewrite request_arguments_call. split; [apply request_tool_call|].
  apply map_eq. intros k. rewrite cleaned_params_lookup.
  rewrite !lookup_union.
  destruct (decide (k = str "operation")) as [->|?];
    [destruct retmax, detail_level, max_tokens; reflexivity|].
  destruct (decide (k = str "database")) as [->|?];
    [destruct retmax, detail_level, max_tokens; reflexivity|].
  destruct (decide (k = str "ids")) as [->|?];
    [destruct retmax, detail_level, max_tokens; reflexivity|].
  destruct (decide (k = str "compact_mode")) as [->|?];
    [destruct retmax, detail_level, max_tokens; reflexivity|].
  destruct (decide (k = str "retmax")) as [->|?];
    [destruct retmax, detail_level, max_tokens; reflexivity|].
  destruct (decide (k = str "detail_level")) as [->|?];
    [destruct retmax, detail_level, max_tokens; reflexivity|].
  destruct (decide (k = str "max_tokens")) as [->|?];
    [destruct retmax, detail_level, max_tokens; reflexivity|].
  rewrite !lookup_insert_ne, lookup_empty by congruence.
  destruct retmax, detail_level, max_tokens;
    rewrite ?lookup_singleton_ne, ?lookup_empty by congruence; reflexivity.
Qed.

Lemma fetch_and_stage_eq database ids rettype force_direct include_raw w :
  fetch_and_stage database ids rettype force_direct include_raw w =
    match _call (str "entrez_data")
            (stage_params database ids rettype force_direct include_raw) w with
    | (Return (JDict r), w') =>
        match r !! str "data_access_id" with
        | Some id =>
            if truthy id
            then (Return (Staged {| data_access_id := id; staging_result := r |}), w')
            else (Return (NotStaged r), w')
        | None => (Return (NotStaged r), w')
        end
    | (Return _, w') => (Raise AttributeError, w')
    | (Raise e, w') => (Raise e, w')
    end.
Proof.
  unfold fetch_and_stage, bind. fold (stage_params database ids rettype force_direct include_raw).
  change (<[str "operation" := JStr (str "fetch_and_stage")]> _)
    with (stage_params database ids rettype force_direct include_raw).
  destruct (_call (str "entrez_data") _ w) as [[v|e] w']; [|reflexivity].
  destruct v as [| | | | | |r]; try reflexivity.
  destruct (r !! str "data_access_id") as [id|]; [|reflexivity].
  destruct (truthy id); reflexivity.
Qed.

Lemma call_absent_result tool_name params w earlier e response :
  wire (_call tool_name params w).2 = earlier ++ [e] ->
  got e = Replied response ->
  (status response < 400)%Z ->
  strip (text response) = []
  \/ (exists d,
        _parse_response_text (text response) = Return (JDict d)
        /\ d !! str "error" = None
        /\ (d !! str "result" = None \/ d !! str "result" = Some JNull)) ->
  (_call tool_name params w).1 = Return JNull.
Proof.
  intros Hlast Hgot Hs Hbody.
  assert (Hd : exists d,
             _parse_response_text (text response) = Return (JDict d)
             /\ d !! str "error" = None
             /\ default JNull (d !! str "result") = JNull).
  { destruct Hbody as [Hempty|(d & Hparse & Herr & [Hres|Hres])].
    - exists ∅. unfold _parse_response_text. rewrite Hempty. auto.
    - exists d. rewrite Hres. auto.
    - exists d. rewrite Hres. auto. }
  destruct Hd as (d & Hparse & Herr & Hres).
  destruct (invoke_last tool_name params w) as (earlier' & e' & label & Hlast' & _ & Hr).
  rewrite Hlast in Hlast'. apply app_inj_tail in Hlast' as [_ <-].
  rewrite Hr, Hgot. simpl settle.
  rewrite (handle_response_decoded label response _ Hs Hparse).
  simpl has_error. rewrite Herr.
  rewrite bool_decide_eq_false_2 by (intros [? ?]; discriminate).
  rewrite Hres. destruct (truthy (JDict d)); reflexivity.
Qed.

(** X16. When the server answers the request of [fetch_and_stage] with a
    status below 400 but without a result (an empty body, or an envelope
    without [error] whose [result] is missing or [null]), [fetch_and_stage]
    does not return
    [None] as [invoke] does: the built-in [AttributeError] of
    [result.get] leaves it. *)
Theorem fetch_and_stage_without_result
    database ids rettype force_direct include_raw w earlier e response :
  wire (fetch_and_stage database ids rettype force_direct include_raw w).2
    = earlier ++ [e] ->
  got e = Replied response ->
  (status response < 400)%Z ->
  strip (text response) = []
  \/ (exists d,
        _parse_response_text (text response) = Return (JDict d)
        /\ d !! str "error" = None
        /\ (d !! str "result" = None \/ d !! str "result" = Some JNull)) ->
  (fetch_and_stage database ids rettype force_direct include_raw w).1
  = Raise AttributeError.
Proof.
  intros Hlast Hgot Hs Hbody. rewrite fetch_and_stage_eq in *.
  pose proof (call_absent_result (str "entrez_data")
                (stage_params database ids rettype force_direct include_raw)
                w earlier e response) as Hnone.
  destruct (_call (str "entrez_data") _ w) as [[v|x] w'] eqn:Hcall.
  - assert (Hw : wire w' = earlier ++ [e]).
    { destruct v as [| | | | | |r]; try exact Hlast.
      destruct (r !! str "data_access_id") as [id|]; [|exact Hlast].
      destruct (truthy id); exact Hlast. }
    specialize (Hnone Hw Hgot Hs Hbody). simpl in Hnone. injection Hnone as ->.
    reflexivity.
  - specialize (Hnone Hlast Hgot Hs Hbody). discriminate Hnone.
Qed.

(** X17. [fetch_and_stage] returns a [DataStaging] exactly when the tool
    call returned a dict whose [data_access_id] counts as true: that value
    is the id of the [DataStaging] and the whole dict its metadata. It
    returns the dict itself exactly when the tool call returned a dict in
    which that key is missing or counts as false. Either way the client
    and the wire are as the tool call left them. *)
Theorem fetch_and_stage_result
    database ids rettype force_direct include_raw w w' :
  (forall st,
      fetch_and_stage database ids rettype force_direct include_raw w
        = (Return (Staged st), w')
      <-> _call (str "entrez_data")
            (stage_params database ids rettype force_direct include_raw) w
          = (Return (JDict (staging_result st)), w')
          /\ staging_result st !! str "data_access_id" = Some (data_access_id st)
          /\ truthy (data_access_id st) = true)
  /\ (forall r,
        fetch_and_stage database ids rettype force_direct include_raw w
          = (Return (NotStaged r), w')
        <-> _call (str "entrez_data")
              (stage_params database ids rettype force_direct include_raw) w
            = (Return (JDict r), w')
            /\ (r !! str "data_access_id" = None
                \/ exists id, r !! str "data_access_id" = Some id
                              /\ truthy id = false)).
Proof.
  rewrite fetch_and_stage_eq.
  destruct (_call (str "entrez_data") _ w) as [[v|x] w1].
  2:{ split; intros; (split; [discriminate | intros [Hc _]; discriminate Hc]). }
  destruct v as [| | | | | |d];
    try (split; intros; (split; [discriminate | intros [Hc _]; discriminate Hc])).
  split.
  - intros [id r]. simpl data_access_id. simpl staging_result. split.
    + destruct (d !! str "data_access_id") as [id'|] eqn:Hid; [|discriminate].
      destruct (truthy id') eqn:Ht; [|discriminate].
      intros [= <- <- <-]. auto.
    + intros ([= -> ->] & Hid & Ht). rewrite Hid, Ht. reflexivity.
  - intros r. split.
    + destruct (d !! str "data_access_id") as [id'|] eqn:Hid.
      * destruct (truthy id') eqn:Ht; [discriminate|].
        intros [= <- <-]. split; [reflexivity|]. right. eauto.
      * intros [= <- <-]. split; [reflexivity|]. left. exact Hid.
    + intros ([= -> ->] & [Hid|(id & Hid & Ht)]).
      * rewrite Hid. reflexivity.
      * rewrite Hid, Ht. reflexivity.
Qed.

(** X18. [DataStaging.query] without options, or with an empty dict of
    options, by a client in session sends one [tools/call] request for
    [entrez_data] with the operation [query], the id of the staged data
    set, the SQL text and the response style [text], and neither
    [intended_use] nor [max_tokens]. *)
Theorem staging_query_defaults st sql options w :
  session_truthy (session_id (sdk w)) = true ->
  options = None \/ options = Some ∅ ->
  data_access_id st <> JNull ->
  sql <> JNull ->
  exists e,
    exchanges_since w (staging_query st sql options w).2 = [e]
    /\ request_method (sent e) = Some (JStr (str "tools/call"))
    /\ request_params (sent e) =
         Some (JDict (<[str "name" := JStr (str "entrez_data")]>
                      (<[str "arguments" :=
                           JDict (<[str "operation" := JStr (str "query")]>
                                  (<[str "data_access_id" := data_access_id st]>
                                   (<[str "sql" := sql]>
                                    (<[str "response_style" := JStr (str "text")]> ∅))))]>
                       ∅))).
Proof.
  intros Hs Hopts Hid Hsql.
  assert (Hnone : opts_of options = ∅) by (destruct Hopts as [-> | ->]; reflexivity).
  unfold staging_query. rewrite Hnone. unfold query_staged_data.
  match goal with
  | |- context [_call _ ?ps w] =>
      destruct (call_in_session (str "entrez_data") ps w Hs) as (out & Hx & _)
  end.
  eexists. split; [exact Hx|]. simpl sent.
  split; [apply request_method_envelope|].
  rewrite request_tool_call. do 4 f_equal. apply (f_equal JDict).
  apply map_eq. intros k. rewrite cleaned_params_lookup.
  destruct (decide (k = str "operation")) as [->|?]; [reflexivity|].
  destruct (decide (k = str "data_access_id")) as [->|?].
  { lookup_key. symmetry. lookup_key. destruct (data_access_id st); congruence. }
  destruct (decide (k = str "sql")) as [->|?].
  { lookup_key. symmetry. lookup_key. destruct sql; congruence. }
  destruct (decide (k = str "intended_use")) as [->|?]; [reflexivity|].
  destruct (decide (k = str "max_tokens")) as [->|?]; [reflexivity|].
  destruct (decide (k = str "response_style")) as [->|?]; [reflexivity|].
  rewrite !lookup_insert_ne, lookup_empty by congruence. reflexivity.
Qed.

(** X19. [close] drops the HTTP session and nothing else: the session id
    stays, and the next invocation runs exactly as it would have without
    the [close], with the same requests (so no new handshake), the same
    result and the same client afterwards, which has an HTTP session
    again. *)
Theorem close_keeps_the_session_id tool_name params w :
  _session (sdk (close_client w)) = false
  /\ session_id (sdk (close_client w)) = session_id (sdk w)
  /\ invoke tool_name params (close_client w) = invoke tool_name params w
  /\ _session (sdk (invoke tool_name params (close_client w)).2) = true.
Proof.
  split; [reflexivity|]. split; [reflexivity|].
  assert (Hsame : invoke tool_name params (close_client w) = invoke tool_name params w).
  { unfold invoke. destruct (session_truthy (session_id (sdk w))) eqn:Hs.
    - rewrite (_call_with_session _ _ (close_client w) Hs),
        (_call_with_session _ _ w Hs). reflexivity.
    - rewrite (_call_without_session _ _ (close_client w) Hs),
        (_call_without_session _ _ w Hs). reflexivity. }
  split; [exact Hsame|]. rewrite Hsame. unfold invoke.
  assert (Hreq : forall c m ps w0,
             _session (sdk (_request_payload c m ps w0).2) = true).
  { intros c m ps w0. destruct (_request_payload_sent c m ps w0) as (out & -> & _).
    simpl. destruct out as [response|msg|response failure]; [|reflexivity|];
      (unfold _extract_session_id;
       destruct (headers_get _ _) as [s|]; [|reflexivity];
       destruct (str_truthy s); reflexivity). }
  destruct (session_truthy (session_id (sdk w))) eqn:Hs.
  - rewrite (_call_with_session _ _ _ Hs). apply Hreq.
  - rewrite (_call_without_session _ _ _ Hs).
    pose proof (Hreq (str "initialize") (str "initialize")
                  (initialize_params (sdk w)) w) as Hinit.
    destruct (_request_payload (str "initialize") _ _ w) as [[v|x] w1];
      [apply Hreq | exact Hinit].
Qed.

End Tools.

Lemma search_sends_what_was_given_witness :
  exists e,
    exchanges_since in_session
      (@search RefJson.python (replying (ok_reply None))
         (str "pubmed") (str "CRISPR") 20 None (Some (str "relevance")) None None
         in_session).2 = [e]
    /\ request_arguments (sent e) !! str "sort" = Some (JStr (str "relevance"))
    /\ request_arguments (sent e) !! str "field" = None.
Proof.
  destruct (@search_sends_what_was_given RefJson.python (replying (ok_reply None))
              (str "pubmed") (str "CRISPR") 20%Z None (Some (str "relevance")) None None
              in_session eq_refl) as (e & He & _ & _ & Hargs).
  exists e. split; [exact He|]. rewrite Hargs. split; vm_compute; reflexivity.
Defined.

Lemma summary_joins_ids_witness :
  exists e,
    exchanges_since in_session
      (@summary RefJson.python (replying (ok_reply None))
         (str "pubmed") (IdList [str "31452104"; str "31452105"]) None true None None
         in_session).2 = [e]
    /\ request_arguments (sent e) !! str "ids" = Some (JStr (str "31452104,31452105"))
    /\ request_arguments (sent e) !! str "retmax" = None.
Proof.
  destruct (proj1 (@summary_joins_ids RefJson.python (replying (ok_reply None))
                     (str "pubmed") (IdList [str "31452104"; str "31452105"])
                     None true None None in_session eq_refl))
    as (e & He & _ & _ & Hargs).
  exists e. split; [exact He|]. rewrite Hargs. split; vm_compute; reflexivity.
Defined.

Lemma fetch_and_stage_without_result_witness :
  (stage_run empty_reply).1 = Raise AttributeError.
Proof.
  apply (@fetch_and_stage_without_result RefJson.python (replying empty_reply)
           (str "pubmed") (IdList [str "31452104"; str "31452105"]) (str "xml")
           false false in_session []
           (exchange_at (stage_run empty_reply).2 0) empty_reply).
  - vm_compute. reflexivity.
  - reflexivity.
  - simpl. lia.
  - left. vm_compute. reflexivity.
Defined.

Lemma fetch_and_stage_result_witness :
  stage_run staged_reply = (Return (Staged staged_ds1), (stage_run staged_reply).2).
Proof.
  apply (proj1 (@fetch_and_stage_result RefJson.python (replying staged_reply)
                  (str "pubmed") (IdList [str "31452104"; str "31452105"])
                  (str "xml") false false in_session (stage_run staged_reply).2)
           staged_ds1).
  split; [|split].
  - vm_compute. reflexivity.
  - vm_compute. reflexivity.
  - reflexivity.
Defined.

Lemma staging_query_defaults_witness :
  exists e,
    exchanges_since in_session
      (@staging_query RefJson.python (replying (ok_reply None))
         staged_ds1 (JStr (str "SELECT pmid FROM article")) (Some ∅)
         in_session).2 = [e]
    /\ request_method (sent e) = Some (JStr (str "tools/call")).
Proof.
  assert (Hid : data_access_id staged_ds1 <> JNull) by discriminate.
  assert (Hsql : JStr (str "SELECT pmid FROM article") <> JNull) by discriminate.
  destruct (@staging_query_defaults RefJson.python (replying (ok_reply None))
              staged_ds1 (JStr (str "SELECT pmid FROM article")) (Some ∅)
              in_session eq_refl (or_intror eq_refl) Hid Hsql)
    as (e & He & Hm & _).
  exists e. split; [exact He | exact Hm].
Defined.
